(** * A shallow embedding of [timeline.py]

    The module lays out time-stamped events: input records become sized
    [Item]s, the items become [Node]s at the scale projection of their time,
    and a resolver and a layer renderer compute the final geometry.

    Modelling choices.
    - Python values that flow through the module are the scalars of [pyval].
      Numbers are exact rationals ([Q]); the distinction between [int] and
      [float] and floating-point rounding are not modelled.  Arithmetic on
      dates (which would produce a [timedelta]) is not modelled either: the
      arithmetic operators are defined on numeric operands and on string
      concatenation, as the sizes and coordinates of the module are.
    - Dicts are finite maps from strings ([gmap string _]).  The objects
      that the options hold by reference (the nested dicts of the defaults,
      among them [TIMELINE_DEFAULT_OPTIONS["labella"]], and the scale) live
      in an explicit store; an options dict holds their locations, so a copy
      of the entries of a dict shares them.
    - Exceptions are the [Raise] results of an error monad; code that writes
      to the store runs in a state and error monad.
    - The classes and functions of other modules are parameters of the
      development.  A function body finds them by name when it runs
      ([load_global]), in the namespace that the top-level statements of the
      module create. *)

From Stdlib Require Import ZArith QArith Ascii String List Lia.
From stdpp Require Import base option list strings gmap.

Local Open Scope string_scope.
Local Open Scope Z_scope.

(** ** Values *)

Inductive pyval :=
| PyNone
| PyBool (b : bool)
| PyNum (q : Q)
| PyStr (s : string)
| PyDate (day : Z)                (* datetime.date *)
| PyTime (tod : Z)                (* datetime.time, as time of day *)
| PyDatetime (day : Z) (tod : Z). (* datetime.datetime, a subclass of date *)

Definition num (z : Z) : pyval := PyNum (inject_Z z).

(** ** Exceptions *)

Inductive exn :=
| KeyError (key : string)
| NameError (name : string)
| AttributeError (attr : string)
| TypeError
| ValueError
| ZeroDivisionError
| IndexError.

Inductive result (A : Type) :=
| Ok (a : A)
| Raise (e : exn).
Arguments Ok {A} a.
Arguments Raise {A} e.

#[global] Instance result_ret : MRet result := fun A a => Ok a.
#[global] Instance result_bind : MBind result := fun A B f m =>
  match m with
  | Ok a => f a
  | Raise e => Raise e
  end.

(** ** Operators *)

(** Truth value of an object in a condition. *)
Definition truthy (v : pyval) : bool :=
  match v with
  | PyNone => false
  | PyBool b => b
  | PyNum q => negb (Qeq_bool q 0)
  | PyStr s => negb (String.eqb s EmptyString)
  | PyDate _ | PyTime _ | PyDatetime _ _ => true
  end.

Definition is_none (v : pyval) : bool :=
  match v with PyNone => true | _ => false end.

(** [bool] is a subclass of [int]: it takes part in arithmetic as 0 or 1. *)
Definition as_num (v : pyval) : option Q :=
  match v with
  | PyNum q => Some q
  | PyBool b => Some (if b then 1%Q else 0%Q)
  | _ => None
  end.

Definition py_add (a b : pyval) : result pyval :=
  match as_num a, as_num b with
  | Some x, Some y => Ok (PyNum (x + y))
  | _, _ =>
      match a, b with
      | PyStr s, PyStr t => Ok (PyStr (s ++ t))
      | _, _ => Raise TypeError
      end
  end.

Definition py_sub (a b : pyval) : result pyval :=
  match as_num a, as_num b with
  | Some x, Some y => Ok (PyNum (x - y))
  | _, _ => Raise TypeError
  end.

(** True division [a / b]. *)
Definition py_div (a b : pyval) : result pyval :=
  match as_num a, as_num b with
  | Some x, Some y =>
      if Qeq_bool y 0 then Raise ZeroDivisionError else Ok (PyNum (x / y))
  | _, _ => Raise TypeError
  end.

Definition Qltb (x y : Q) : bool := negb (Qle_bool y x).

Definition pair_ltb (a b : Z * Z) : bool :=
  (a.1 <? b.1) || ((a.1 =? b.1) && (a.2 <? b.2)).

(** [a > b].  Ordering is defined between numbers, between strings and
    between two values of the same date or time class. *)
Definition py_gt (a b : pyval) : result bool :=
  match as_num a, as_num b with
  | Some x, Some y => Ok (Qltb y x)
  | _, _ =>
      match a, b with
      | PyStr s, PyStr t => Ok (String.ltb t s)
      | PyDate d, PyDate e => Ok (e <? d)
      | PyTime s, PyTime t => Ok (t <? s)
      | PyDatetime d s, PyDatetime e t => Ok (pair_ltb (e, t) (d, s))
      | _, _ => Raise TypeError
      end
  end.

(** A string is held as the bytes of its UTF-8 encoding.  A character is one
    byte of the form [0xxxxxxx] or a lead byte [11xxxxxx] followed by the
    continuation bytes [10xxxxxx] of the same character, so the characters
    of a string are its bytes that are no continuation bytes. *)
Definition is_continuation (a : ascii) : bool :=
  (128 <=? nat_of_ascii a)%nat && (nat_of_ascii a <? 192)%nat.

Fixpoint code_points (s : string) : nat :=
  match s with
  | EmptyString => 0%nat
  | String a s' =>
      ((if is_continuation a then 0 else 1) + code_points s')%nat
  end.

(** [len(v)]: the number of characters of a string. *)
Definition py_len (v : pyval) : result Z :=
  match v with
  | PyStr s => Ok (Z.of_nat (code_points s))
  | _ => Raise TypeError
  end.

(** The builtin [max] over an iterable: the first element is the candidate,
    and a later element replaces it when it compares greater. *)
Fixpoint max_from (cur : pyval) (l : list pyval) : result pyval :=
  match l with
  | [] => Ok cur
  | x :: l' => b ← py_gt x cur; max_from (if b : bool then x else cur) l'
  end.

Definition py_max (l : list pyval) : result pyval :=
  match l with
  | [] => Raise ValueError
  | x :: l' => max_from x l'
  end.

(** ** Items *)

Definition DEFAULT_WIDTH : Z := 50.
Definition TEXT_WIDTH_MULTI : Z := 2.
Definition TEXT_HEIGHT : Z := 20.

Record Item := mkItem {
  time : pyval;
  text : pyval;
  width : pyval;
  height : pyval;
  data : gmap string pyval;
  output_mode : string;
  tex_fontsize : string;
  tex_preamble : pyval;
  latexmk_options : pyval
}.

Definition set_height (h : pyval) (it : Item) : Item :=
  mkItem (time it) (text it) (width it) h (data it) (output_mode it)
         (tex_fontsize it) (tex_preamble it) (latexmk_options it).

Definition set_size (w h : pyval) (it : Item) : Item :=
  mkItem (time it) (text it) w h (data it) (output_mode it)
         (tex_fontsize it) (tex_preamble it) (latexmk_options it).

(** [Item.get_text_dimensions], on the text of the item. *)
Definition get_text_dimensions (txt : pyval) : result (pyval * pyval) :=
  n ← py_len txt; Ok (num (n * TEXT_WIDTH_MULTI), num TEXT_HEIGHT).

(** [Item.__init__]; the last three keyword arguments keep their defaults at
    the one call site of the module. *)
Definition Item_init (tm wd txt : pyval) (d : gmap string pyval)
    (mode : string) : result Item :=
  if is_none wd && truthy txt then
    '(w, h) ← get_text_dimensions txt;
    Ok (mkItem tm txt w h d mode "11pt" PyNone PyNone)
  else
    Ok (mkItem tm txt wd (PyNum 13) d mode "11pt" PyNone PyNone).

(** ** Options, objects and the store *)

Definition loc := nat.

(** What an entry of an options dict can hold. *)
Inductive optval :=
| OVal (v : pyval)
| OList (l : list pyval)                       (* a list: palette, domain *)
| ORef (l : loc)                               (* an object, by reference *)
| OFn (f : gmap string pyval -> result pyval). (* a callable of one record *)

(** Modelled from the spec: the [TimeScale] class of module [scale], which is
    not part of this file.  Its interface is [domain(extent)],
    [range(pixelExtent)], [nice()] and the call [scale(timeValue)]; the two
    setters store the extent they are given. *)
Record TimeScale := mkScale {
  ts_domain : list pyval;
  ts_range : list pyval
}.

Inductive obj :=
| DictObj (m : gmap string optval)
| ScaleObj (s : TimeScale).

(** Modelled from the spec: the [Node] class of module [node], a data-only
    contract.  A node is constructed from its ideal position, a width hint
    and its item; [w] and [h] are set by the timeline, and [x], [y], [dx],
    [dy] and [layer] by the layout.  An attribute that has not been set yet
    is [None] here, and reading it raises [AttributeError]. *)
Record Node := mkNode {
  n_idealPos : pyval;
  n_width : pyval;
  n_data : Item;
  n_w : option pyval;
  n_h : option pyval;
  n_x : option pyval;
  n_y : option pyval;
  n_dx : option pyval;
  n_dy : option pyval;
  n_layer : option pyval
}.

Definition Node_init (pos wd : pyval) (it : Item) : Node :=
  mkNode pos wd it None None None None None None None.

Definition set_w (v : pyval) (n : Node) : Node :=
  mkNode (n_idealPos n) (n_width n) (n_data n) (Some v) (n_h n)
         (n_x n) (n_y n) (n_dx n) (n_dy n) (n_layer n).

Definition set_h (v : pyval) (n : Node) : Node :=
  mkNode (n_idealPos n) (n_width n) (n_data n) (n_w n) (Some v)
         (n_x n) (n_y n) (n_dx n) (n_dy n) (n_layer n).

Definition set_width (v : pyval) (n : Node) : Node :=
  mkNode (n_idealPos n) v (n_data n) (n_w n) (n_h n)
         (n_x n) (n_y n) (n_dx n) (n_dy n) (n_layer n).

Definition getattr (name : string) (a : option pyval) : result pyval :=
  match a with
  | Some v => Ok v
  | None => Raise (AttributeError name)
  end.

(** The renderer object: the options it was constructed with. *)
Record Renderer := mkRenderer {
  r_nodeHeight : pyval;
  r_layerGap : optval;
  r_direction : optval
}.

Record Timeline := mkTimeline {
  options : gmap string optval;
  direction : optval;
  items : list Item
}.

(** [d[k]] on an options dict. *)
Definition getitem (m : gmap string optval) (k : string) : result optval :=
  match m !! k with
  | Some v => Ok v
  | None => Raise (KeyError k)
  end.

(** [o[k]] where [o] is an entry of an options dict: it has to be a dict. *)
Definition subscript (st : gmap loc obj) (o : optval) (k : string)
    : result optval :=
  match o with
  | ORef l =>
      match st !! l with
      | Some (DictObj m) => getitem m k
      | _ => Raise TypeError
      end
  | _ => Raise TypeError
  end.

(** An operand of arithmetic has to be a plain value. *)
Definition as_val (o : optval) : result pyval :=
  match o with
  | OVal v => Ok v
  | _ => Raise TypeError
  end.

(** [o == s] for a string literal [s]. *)
Definition eq_str (o : optval) (s : string) : bool :=
  match o with
  | OVal (PyStr t) => String.eqb t s
  | _ => false
  end.

(** [o in ["left", "right"]]. *)
Definition in_left_right (o : optval) : bool :=
  eq_str o "left" || eq_str o "right".

Definition opt_is_none (o : optval) : bool :=
  match o with OVal PyNone => true | _ => false end.

(** Truth value of an options entry. *)
Definition opt_truthy (st : gmap loc obj) (o : optval) : bool :=
  match o with
  | OVal v => truthy v
  | OList l => match l with [] => false | _ => true end
  | ORef l =>
      match st !! l with
      | Some (DictObj m) => negb (bool_decide (m = ∅))
      | _ => true
      end
  | OFn _ => true
  end.

(** Calling an options entry on a record. *)
Definition call (o : optval) (d : gmap string pyval) : result pyval :=
  match o with
  | OFn f => f d
  | _ => Raise TypeError
  end.

Definition setitem (st : gmap loc obj) (o : optval) (k : string) (v : optval)
    : result (gmap loc obj) :=
  match o with
  | ORef l =>
      match st !! l with
      | Some (DictObj m) => Ok (<[l := DictObj (<[k := v]> m)]> st)
      | _ => Raise TypeError
      end
  | _ => Raise TypeError
  end.

(** The receiver of a scale method: the entry has to refer to a scale, and
    the bound method keeps the reference. *)
Definition scale_of (st : gmap loc obj) (o : optval) (method : string)
    : result loc :=
  match o with
  | ORef l =>
      match st !! l with
      | Some (ScaleObj _) => Ok l
      | _ => Raise (AttributeError method)
      end
  | _ => Raise (AttributeError method)
  end.

(** ** The module namespace *)

(** The names bound by the top-level statements of the module: the three
    [import]s, the two [from ... import]s, the four assignments and the two
    class definitions. *)
Definition module_globals : gset string :=
  list_to_set
    ["datetime"; "math"; "os"; "Node"; "Force"; "TimeScale"; "d3_extent";
     "TIMELINE_DEFAULT_OPTIONS"; "DEFAULT_WIDTH"; "TEXT_WIDTH_MULTI";
     "TEXT_HEIGHT"; "Item"; "Timeline"].

(** A function body finds the classes and functions of the other modules by
    name, in the namespace of this module, when the call is evaluated; a
    name that is not bound there (and is no builtin, as none of them is)
    raises [NameError]. *)
Definition load_global (G : gset string) (name : string) : result unit :=
  if bool_decide (name ∈ G) then Ok tt else Raise (NameError name).

(** ** The default options *)

Definition loc_margin : loc := 0%nat.
Definition loc_scale : loc := 1%nat.
Definition loc_labella : loc := 2%nat.
Definition loc_labelPadding : loc := 3%nat.
Definition loc_latex : loc := 4%nat.

Definition default_timeFn (d : gmap string pyval) : result pyval :=
  match d !! "time" with
  | Some v => Ok v
  | None => Raise (KeyError "time")
  end.

Definition default_textFn (d : gmap string pyval) : result pyval :=
  match d !! "text" with
  | Some v => Ok v
  | None => Ok PyNone
  end.

Definition TIMELINE_DEFAULT_OPTIONS : gmap string optval :=
  list_to_map
    [("margin", ORef loc_margin);
     ("initialWidth", OVal (num 400));
     ("initialHeight", OVal (num 400));
     ("scale", ORef loc_scale);
     ("domain", OVal PyNone);
     ("direction", OVal (PyStr "right"));
     ("dotRadius", OVal (num 3));
     ("layerGap", OVal (num 60));
     ("labella", ORef loc_labella);
     ("timeFn", OFn default_timeFn);
     ("textFn", OFn default_textFn);
     ("dotColor", OVal (PyStr "#222"));
     ("labelBgColor", OVal (PyStr "#222"));
     ("labelTextColor", OVal (PyStr "#fff"));
     ("linkColor", OVal (PyStr "#222"));
     ("labelPadding", ORef loc_labelPadding);
     ("textXOffset", OVal (PyStr "0.15em"));
     ("textYOffset", OVal (PyStr "0.85em"));
     ("showTicks", OVal (PyBool true));
     ("borderColor", OVal (PyStr "#000"));
     ("showBorder", OVal (PyBool false));
     ("latex", ORef loc_latex)].

(** The value of ["labelPadding"] in the defaults. *)
Definition default_labelPadding : gmap string optval :=
  list_to_map
    [("left", OVal (num 2)); ("right", OVal (num 2));
     ("top", OVal (num 3)); ("bottom", OVal (num 2))].

(** The objects that the literal of [TIMELINE_DEFAULT_OPTIONS] creates when
    the module is imported. *)
Definition module_store : gmap loc obj :=
  list_to_map
    [(loc_margin,
      DictObj (list_to_map
        [("left", OVal (num 20)); ("right", OVal (num 20));
         ("top", OVal (num 20)); ("bottom", OVal (num 20))]));
     (loc_scale, ScaleObj (mkScale [] []));
     (loc_labella, DictObj ∅);
     (loc_labelPadding, DictObj default_labelPadding);
     (loc_latex,
      DictObj (list_to_map
        [("fontsize", OVal (PyStr "11pt"));
         ("borderThickness", OVal (PyStr "very thick"));
         ("axisThickness", OVal (PyStr "very thick"));
         ("tickThickness", OVal (PyStr "thick"));
         ("linkThickness", OVal (PyStr "very thick"));
         ("tickCross", OVal (PyBool false));
         ("preamble", OVal (PyStr EmptyString));
         ("reproducible", OVal (PyBool false))]))].

(** ** A state and error monad for the code that writes to the store *)

Definition M (A : Type) : Type := gmap loc obj -> result A * gmap loc obj.

#[global] Instance M_ret : MRet M := fun A a st => (Ok a, st).
#[global] Instance M_bind : MBind M := fun A B f m st =>
  match m st with
  | (Ok a, st') => f a st'
  | (Raise e, st') => (Raise e, st')
  end.

(** A computation that only reads the store. *)
Definition reads {A} (f : gmap loc obj -> result A) : M A :=
  fun st => (f st, st).

Definition writes (f : gmap loc obj -> result (gmap loc obj)) : M unit :=
  fun st =>
    match f st with
    | Ok st' => (Ok tt, st')
    | Raise e => (Raise e, st)
    end.

(** A method of the scale at [l] that updates the scale in place. *)
Definition scale_update (l : loc) (method : string)
    (update : TimeScale -> TimeScale) : M unit :=
  fun st =>
    match st !! l with
    | Some (ScaleObj s) => (Ok tt, <[l := ScaleObj (update s)]> st)
    | _ => (Raise (AttributeError method), st)
    end.

Definition scale_domain (l : loc) (extent : list pyval) : M unit :=
  scale_update l "domain" (fun s => mkScale extent (ts_range s)).

Definition scale_range (l : loc) (extent : list pyval) : M unit :=
  scale_update l "range" (fun s => mkScale (ts_domain s) extent).

(** ** The timeline *)

Section Timeline.

(** The collaborators of the module, whose code is in other modules. *)

(** [datetime.date.today()], as a day number. *)
Variable today : Z.
(** The call [scale(t)] of a [TimeScale]. *)
Variable project : TimeScale -> pyval -> pyval.
(** [TimeScale.nice()], on the domain. *)
Variable nice : list pyval -> list pyval.
(** [d3_extent(data, accessor)] of module [scale]. *)
Variable d3_extent : list (gmap string pyval) -> optval -> result (list pyval).
(** [Force(options).nodes(nodes)], [compute()] and [nodes()] of module
    [force], as one function of the options and the nodes. *)
Variable resolve : gmap loc obj -> optval -> list Node -> result (list Node).
(** What the object called [Renderer] does in [layout(nodes)]: it returns the
    nodes with their layer and connector fields set. *)
Variable layout : Renderer -> list Node -> result (list Node).
(** What the object called [d3_functor] returns for an options entry. *)
Variable d3_functor : optval -> optval.

(** [Timeline.textFn] *)
Definition textFn (opts : gmap string optval) (thedict : gmap string pyval)
    : result pyval :=
  f ← getitem opts "textFn";
  if opt_is_none f then
    match thedict !! "text" with
    | None => Ok PyNone
    | Some v => Ok v
    end
  else call f thedict.

(** The first statements of the loop of [parse_items]: a bare date becomes
    that day at midnight (a [datetime] is a [date] too, and loses its time of
    day), a bare time becomes that time today, and the record is updated in
    place.  The result is the time and the record as the loop leaves it. *)
Definition normalize_time (d : gmap string pyval)
    : result (pyval * gmap string pyval) :=
  match d !! "time" with
  | None => Raise (KeyError "time")
  | Some (PyDate day) | Some (PyDatetime day _) =>
      Ok (PyDatetime day 0, <["time" := PyDatetime day 0]> d)
  | Some (PyTime tod) =>
      Ok (PyDatetime today tod, <["time" := PyDatetime today tod]> d)
  | Some t => Ok (t, d)
  end.

(** The body of the loop of [parse_items], on the record as the iteration
    reads it.  Records are values here: the list of [parse_items] is exact
    when its records are distinct objects.  When one object is listed more
    than once, a later iteration reads the record as an earlier one left it;
    this gives the same item, and leaves the record as it was, unless the
    time of the record is a bare time of day, the one case in which
    normalizing twice differs from normalizing once
    ([normalize_time_stable]).  The statements about the record of an item
    exclude that case. *)
Definition parse_item (opts : gmap string optval) (mode : string)
    (d : gmap string pyval) : result Item :=
  '(t, d) ← normalize_time d;
  txt ← textFn opts d;
  let wd :=
    if truthy txt then default PyNone (d !! "width")
    else default (num DEFAULT_WIDTH) (d !! "width") in
  Item_init t wd txt d mode.

(** [Timeline.parse_items] *)
Fixpoint parse_items (opts : gmap string optval) (mode : string)
    (dicts : list (gmap string pyval)) : result (list Item) :=
  match dicts with
  | [] => Ok []
  | d :: dicts' =>
      it ← parse_item opts mode d;
      its ← parse_items opts mode dicts';
      Ok (it :: its)
  end.

(** [Timeline.equal_heights] *)
Definition equal_heights (its : list Item) : result (list Item) :=
  maxheight ← py_max (height <$> its);
  Ok ((fun it => if truthy (text it) then set_height maxheight it else it)
        <$> its).

(** [Timeline.rotate_items] *)
Definition rotate_items (dir : optval) (its : list Item) : list Item :=
  if in_left_right dir then
    (fun it =>
       if truthy (text it) then set_size (height it) (width it) it else it)
      <$> its
  else its.

(** [Timeline.getInnerDims] *)
Definition getInnerDims (st : gmap loc obj) (opts : gmap string optval)
    : result (pyval * pyval) :=
  iw ← getitem opts "initialWidth" ≫= as_val;
  m ← getitem opts "margin";
  l ← subscript st m "left" ≫= as_val;
  a ← py_sub iw l;
  m ← getitem opts "margin";
  r ← subscript st m "right" ≫= as_val;
  innerWidth ← py_sub a r;
  ih ← getitem opts "initialHeight" ≫= as_val;
  m ← getitem opts "margin";
  t ← subscript st m "top" ≫= as_val;
  a ← py_sub ih t;
  m ← getitem opts "margin";
  b ← subscript st m "bottom" ≫= as_val;
  innerHeight ← py_sub a b;
  Ok (innerWidth, innerHeight).

(** [TimeScale.nice()] rounds the domain of the scale outward. *)
Definition scale_nice (l : loc) : M unit :=
  scale_update l "nice" (fun s => mkScale (nice (ts_domain s)) (ts_range s)).

(** [Timeline.init_axis].  A configured domain has to be a list. *)
Definition init_axis (G : gset string) (opts : gmap string optval)
    (dicts : list (gmap string pyval)) : M unit :=
  dom ← reads (fun _ => getitem opts "domain");
  truth ← reads (fun st => Ok (opt_truthy st dom));
  (if truth : bool then
     l ← reads (fun st =>
           sc ← getitem opts "scale"; scale_of st sc "domain");
     dom ← reads (fun _ => getitem opts "domain");
     match dom with
     | OList extent => scale_domain l extent
     | _ => reads (fun _ => Raise TypeError)
     end
   else
     l ← reads (fun st =>
           sc ← getitem opts "scale"; scale_of st sc "domain");
     extent ← reads (fun _ =>
                 _ ← load_global G "d3_extent";
                 f ← getitem opts "timeFn";
                 d3_extent dicts f);
     scale_domain l extent;;
     l ← reads (fun st =>
           sc ← getitem opts "scale"; scale_of st sc "nice");
     scale_nice l);;
  '(innerWidth, innerHeight) ← reads (fun st => getInnerDims st opts);
  dir ← reads (fun _ => getitem opts "direction");
  l ← reads (fun st =>
        sc ← getitem opts "scale"; scale_of st sc "range");
  if in_left_right dir then scale_range l [num 0; innerHeight]
  else scale_range l [num 0; innerWidth].

(** The call [o(t)] where [o] is the scale entry of the options. *)
Definition call_scale (st : gmap loc obj) (o : optval) (t : pyval)
    : result pyval :=
  match o with
  | ORef l =>
      match st !! l with
      | Some (ScaleObj s) => Ok (project s t)
      | _ => Raise TypeError
      end
  | _ => Raise TypeError
  end.

(** [Timeline.timePos] *)
Definition timePos (st : gmap loc obj) (opts : gmap string optval)
    (thedict : gmap string pyval) : result pyval :=
  sc ← getitem opts "scale";
  if opt_is_none sc then
    f ← getitem opts "timeFn"; call f thedict
  else
    sc ← getitem opts "scale";
    f ← getitem opts "timeFn";
    t ← call f thedict;
    call_scale st sc t.

(** The first loop of [get_nodes]. *)
Fixpoint make_nodes (G : gset string) (st : gmap loc obj)
    (opts : gmap string optval) (its : list Item) : result (list Node) :=
  match its with
  | [] => Ok []
  | it :: its' =>
      _ ← load_global G "Node";
      pos ← timePos st opts (data it);
      let n := Node_init pos (width it) it in
      ns ← make_nodes G st opts its';
      Ok (n :: ns)
  end.

(** The body of the second loop of [get_nodes]. *)
Definition size_node (st : gmap loc obj) (opts : gmap string optval)
    (node : Node) : result Node :=
  p ← getitem opts "labelPadding";
  l ← subscript st p "left" ≫= as_val;
  a ← py_add (width (n_data node)) l;
  p ← getitem opts "labelPadding";
  r ← subscript st p "right" ≫= as_val;
  w ← py_add a r;
  let node := set_w w node in
  p ← getitem opts "labelPadding";
  t ← subscript st p "top" ≫= as_val;
  a ← py_add (height (n_data node)) t;
  p ← getitem opts "labelPadding";
  b ← subscript st p "bottom" ≫= as_val;
  h ← py_add a b;
  let node := set_h h node in
  dir ← getitem opts "direction";
  if in_left_right dir then
    w ← getattr "w" (n_w node);
    h ← getattr "h" (n_h node);
    let node := set_w h (set_h w node) in
    h ← getattr "h" (n_h node);
    Ok (set_width h node)
  else
    w ← getattr "w" (n_w node);
    Ok (set_width w node).

Fixpoint size_nodes (st : gmap loc obj) (opts : gmap string optval)
    (nodes : list Node) : result (list Node) :=
  match nodes with
  | [] => Ok []
  | node :: nodes' =>
      n ← size_node st opts node;
      ns ← size_nodes st opts nodes';
      Ok (n :: ns)
  end.

(** [Timeline.get_nodes] *)
Definition get_nodes (G : gset string) (st : gmap loc obj) (tl : Timeline)
    : result (list Node) :=
  nodes ← make_nodes G st (options tl) (items tl);
  size_nodes st (options tl) nodes.

(** The attribute [name] of every node, for a generator over the nodes. *)
Fixpoint attrs (name : string) (f : Node -> option pyval) (nodes : list Node)
    : result (list pyval) :=
  match nodes with
  | [] => Ok []
  | n :: nodes' =>
      v ← getattr name (f n); vs ← attrs name f nodes'; Ok (v :: vs)
  end.

(** [Timeline.compute] *)
Definition compute (G : gset string) (st : gmap loc obj) (tl : Timeline)
    : result (list Node * Renderer) :=
  nodes ← get_nodes G st tl;
  nodeHeight ←
    (if in_left_right (direction tl) then attrs "w" n_w nodes ≫= py_max
     else attrs "h" n_h nodes ≫= py_max);
  _ ← load_global G "Renderer";
  layerGap ← getitem (options tl) "layerGap";
  dir ← getitem (options tl) "direction";
  let renderer := mkRenderer nodeHeight layerGap dir in
  nodes ← layout renderer nodes;
  _ ← load_global G "Force";
  labella ← getitem (options tl) "labella";
  newnodes ← resolve st labella nodes;
  newnodes ← layout renderer newnodes;
  Ok (newnodes, renderer).


(** [Timeline.colorFunc] *)
Definition colorFunc (G : gset string) (opts : gmap string optval)
    (colorName : string) (thedict : gmap string pyval) (i : Z)
    : result pyval :=
  c ← getitem opts colorName;
  match c with
  | OList l =>
      if Z.of_nat (length l) =? 0 then Raise ZeroDivisionError
      else
        match l !! Z.to_nat (i mod Z.of_nat (length l)) with
        | Some v => Ok v
        | None => Raise IndexError
        end
  | _ =>
      _ ← load_global G "d3_functor";
      c ← getitem opts colorName;
      let theColor := d3_functor c in
      call theColor thedict
  end.

Definition dotColor G opts thedict i := colorFunc G opts "dotColor" thedict i.
Definition linkColor G opts thedict i :=
  colorFunc G opts "linkColor" thedict i.
Definition labelBgColor G opts thedict i :=
  colorFunc G opts "labelBgColor" thedict i.
Definition labelTextColor G opts thedict i :=
  colorFunc G opts "labelTextColor" thedict i.
Definition borderColor G opts thedict i :=
  colorFunc G opts "borderColor" thedict i.

(** [Timeline.nodePos]; the function returns [None] when no branch of the
    chain is taken. *)
Definition nodePos (dir : optval) (d : Node) (nodeHeight : pyval)
    : result (option (pyval * pyval)) :=
  if eq_str dir "right" then
    x ← getattr "x" (n_x d);
    y ← getattr "y" (n_y d);
    dy ← getattr "dy" (n_dy d);
    half ← py_div dy (num 2);
    b ← py_sub y half;
    Ok (Some (x, b))
  else if eq_str dir "left" then
    x ← getattr "x" (n_x d);
    w ← getattr "w" (n_w d);
    a ← py_sub x w;
    dx ← getattr "dx" (n_dx d);
    a ← py_add a dx;
    y ← getattr "y" (n_y d);
    dy ← getattr "dy" (n_dy d);
    half ← py_div dy (num 2);
    b ← py_sub y half;
    Ok (Some (a, b))
  else if eq_str dir "up" then
    x ← getattr "x" (n_x d);
    dx ← getattr "dx" (n_dx d);
    half ← py_div dx (num 2);
    a ← py_sub x half;
    y ← getattr "y" (n_y d);
    Ok (Some (a, y))
  else if eq_str dir "down" then
    x ← getattr "x" (n_x d);
    dx ← getattr "dx" (n_dx d);
    half ← py_div dx (num 2);
    a ← py_sub x half;
    y ← getattr "y" (n_y d);
    Ok (Some (a, y))
  else Ok None.

(** The options of a timeline: a copy of the entries of the defaults,
    updated with the options of the caller when there are any.  The copy is
    of the entries: a reference in it is the reference of the defaults. *)
Definition merged_options (caller : option (gmap string optval))
    : gmap string optval :=
  let opts := TIMELINE_DEFAULT_OPTIONS in
  match caller with
  | Some o => if bool_decide (o = ∅) then opts else o ∪ opts
  | None => opts
  end.

(** The statements of [Timeline.__init__] after the write to the [labella]
    options.  The records that [init_axis] receives are the records of the
    caller after [parse_items] has updated them, which are the [data] of the
    items. *)
Definition Timeline_init_rest (G : gset string)
    (dicts : list (gmap string pyval)) (opts : gmap string optval)
    (dir : optval) (mode : string) : M Timeline :=
  its ← reads (fun _ => parse_items opts mode dicts);
  its ← reads (fun _ => equal_heights its);
  let its := rotate_items dir its in
  init_axis G opts (data <$> its);;
  mret (mkTimeline opts dir its).

(** [Timeline.__init__] *)
Definition Timeline_init (G : gset string) (dicts : list (gmap string pyval))
    (caller : option (gmap string optval)) (mode : string) : M Timeline :=
  let opts := merged_options caller in
  dir ← reads (fun _ => getitem opts "direction");
  writes (fun st =>
    lab ← getitem opts "labella"; setitem st lab "direction" dir);;
  Timeline_init_rest G dicts opts dir mode.

End Timeline.

(** ** Notions used in the statements *)

(** An item carries text when its text is true in a condition. *)
Definition textual (it : Item) : bool := truthy (text it).

(** An item as the constructor of [Item] leaves it. *)
Definition constructed (it : Item) : Prop :=
  exists tm wd txt d mode, Item_init tm wd txt d mode = Ok it.

(** [m] is the maximum height among the items of [its] that carry text: one
    of them has it, and none of them is greater. *)
Definition max_textual_height (m : pyval) (its : list Item) : Prop :=
  (exists it, it ∈ its /\ textual it = true /\ height it = m) /\
  forall it, it ∈ its -> textual it = true -> py_gt (height it) m = Ok false.

(** The heights that the constructor gives. *)
Definition is_13_or_20 (v : pyval) : Prop :=
  v = PyNum 13 \/ v = num TEXT_HEIGHT.

(** A computation keeps the dicts of the store when every dict of the store
    before it is the same dict after it. *)
Definition keeps_dicts {A} (m : M A) : Prop :=
  forall st l d, st !! l = Some (DictObj d) -> (m st).2 !! l = Some (DictObj d).

(** The direction of a timeline constructed with the options [caller]. *)
Definition direction_of (caller : option (gmap string optval)) : optval :=
  match caller with
  | Some o => default (OVal (PyStr "right")) (o !! "direction")
  | None => OVal (PyStr "right")
  end.

(** [TIMELINE_DEFAULT_OPTIONS["labella"]["direction"]] in the store [st]. *)
Definition default_labella_direction (st : gmap loc obj) : result optval :=
  lab ← getitem TIMELINE_DEFAULT_OPTIONS "labella";
  subscript st lab "direction".

(** [tl.options["labella"]["direction"]] in the store [st]. *)
Definition labella_direction (st : gmap loc obj) (tl : Timeline)
    : result optval :=
  lab ← getitem (options tl) "labella";
  subscript st lab "direction".

(** A timeline constructed over the defaults "omits" a key when the caller's
    options do not have it. *)
Definition omits (key : string) (caller : option (gmap string optval)) : Prop :=
  match caller with
  | Some o => o !! key = None
  | None => True
  end.

(** Modelled from the spec: [d3_functor], which [colorFunc] calls and no
    statement of this file defines.  The specification has a style option
    that is not a list treated as a callable-or-constant functor: a callable
    stays, any other value becomes the constant function. *)
Definition functor_of (c : optval) : optval :=
  match c with
  | OFn f => OFn f
  | OVal v => OFn (fun _ => Ok v)
  | other => other
  end.

(** Records and options of the examples. *)
Definition record_jan : gmap string pyval :=
  list_to_map [("time", num 0); ("text", PyStr "Jan"); ("width", num 30)].

Definition record_dot : gmap string pyval :=
  list_to_map [("time", num 5)].

Definition record_hello : gmap string pyval :=
  list_to_map [("time", num 1); ("text", PyStr "Hello")].

Definition item_jan : Item :=
  mkItem (num 0) (PyStr "Jan") (num 30) (PyNum 13) record_jan
         "svg" "11pt" PyNone PyNone.

Definition item_hello : Item :=
  mkItem (num 1) (PyStr "Hello") (num 10) (num 20) record_hello
         "svg" "11pt" PyNone PyNone.

Definition item_dot : Item :=
  mkItem (num 5) PyNone (num 50) (PyNum 13) record_dot
         "svg" "11pt" PyNone PyNone.

Definition options_domain : gmap string optval :=
  {[ "domain" := OList [num 0; num 10] ]}.

Definition constant_extent (data : list (gmap string pyval)) (f : optval)
    : result (list pyval) := Ok [num 0; num 10].

(** A timeline of the examples: two records, an explicit domain, the
    defaults otherwise, constructed in the store of the freshly imported
    module.  The collaborators are stand-ins: day 0 is today, [nice] leaves
    the domain as it is, and the scale projects a time to itself. *)
Definition stand_in_project (s : TimeScale) (t : pyval) : pyval := t.

Definition example_run : result Timeline * gmap loc obj :=
  Timeline_init 0 (fun extent => extent) constant_extent module_globals
    [record_hello; record_dot] (Some options_domain) "svg" module_store.

Definition example_store : gmap loc obj := example_run.2.

Definition example_timeline : Timeline :=
  match example_run.1 with
  | Ok tl => tl
  | Raise _ => mkTimeline ∅ (OVal PyNone) []
  end.

(** Two constructions in a row, in the store of the freshly imported
    module: a timeline with the direction ["up"], then one with the
    defaults. *)
Definition options_up : gmap string optval :=
  <["direction" := OVal (PyStr "up")]> options_domain.

Definition run_up : result Timeline * gmap loc obj :=
  Timeline_init 0 (fun extent => extent) constant_extent module_globals
    [record_dot] (Some options_up) "svg" module_store.

Definition run_default : result Timeline * gmap loc obj :=
  Timeline_init 0 (fun extent => extent) constant_extent module_globals
    [record_dot] None "svg" run_up.2.

(** A timeline whose time accessor reads the key ["start"], over a record
    whose ["time"] is 5 and whose ["start"] is 9. *)
Definition start_timeFn (d : gmap string pyval) : result pyval :=
  match d !! "start" with
  | Some v => Ok v
  | None => Raise (KeyError "start")
  end.

Definition record_start : gmap string pyval :=
  list_to_map [("time", num 5); ("start", num 9)].

Definition options_start : gmap string optval :=
  <["timeFn" := OFn start_timeFn]> options_domain.

Definition run_start : result Timeline * gmap loc obj :=
  Timeline_init 0 (fun extent => extent) constant_extent module_globals
    [record_start] (Some options_start) "svg" module_store.

Definition timeline_start : Timeline :=
  match run_start.1 with
  | Ok tl => tl
  | Raise _ => mkTimeline ∅ (OVal PyNone) []
  end.

(** A node after layout, for the examples. *)
Definition node_laid_out : Node :=
  mkNode (num 7) (num 14) item_dot (Some (num 14)) (Some (num 18))
         (Some (num 100)) (Some (num 40)) (Some (num 6)) (Some (num 8))
         (Some (num 1)).

(** The nodes of a timeline with a scale, numeric paddings and items of
    numeric size whose record the time accessor accepts. *)
Definition sized_node (project : TimeScale -> pyval -> pyval) (s : TimeScale)
    (dir : optval) (pl pr pt pb : Q) (it : Item) (t : pyval) (wq hq : Q)
    : Node :=
  if in_left_right dir then
    mkNode (project s t) (PyNum (wq + pl + pr)) it
           (Some (PyNum (hq + pt + pb))) (Some (PyNum (wq + pl + pr)))
           None None None None None
  else
    mkNode (project s t) (PyNum (wq + pl + pr)) it
           (Some (PyNum (wq + pl + pr))) (Some (PyNum (hq + pt + pb)))
           None None None None None.

(** More records of the examples: one without a time, one with a full
    [datetime] (day 3 at noon, in seconds), one with a bare time of day, one
    whose width is [None] and that has no text, and one whose text is a
    number. *)
Definition record_no_time : gmap string pyval :=
  list_to_map [("text", PyStr "lost")].

Definition record_noon : gmap string pyval :=
  list_to_map [("time", PyDatetime 3 43200); ("text", PyStr "noon")].

Definition record_teatime : gmap string pyval :=
  list_to_map [("time", PyTime 61200)].

Definition record_none_width : gmap string pyval :=
  list_to_map [("time", num 2); ("width", PyNone)].

(** One whose text has a character of two bytes. *)
Definition record_cafe : gmap string pyval :=
  list_to_map [("time", num 3); ("text", PyStr "café")].

(** No record with a bare time of day occurs at two positions of the list:
    an object that is listed twice has the same value at both. *)
Definition bare_times_once (dicts : list (gmap string pyval)) : Prop :=
  forall (i j : nat) (d : gmap string pyval) (tod : Z),
    i <> j -> dicts !! i = Some d -> dicts !! j = Some d ->
    d !! "time" <> Some (PyTime tod).

Definition record_number_text : gmap string pyval :=
  list_to_map [("time", num 2); ("text", num 7)].

(** The canvas of a timeline is numeric when the initial width and height
    and the four margins are numbers. *)
Definition numeric_canvas (st : gmap loc obj) (opts : gmap string optval)
    (iw ih l r t b : Q) : Prop :=
  opts !! "initialWidth" = Some (OVal (PyNum iw)) /\
  opts !! "initialHeight" = Some (OVal (PyNum ih)) /\
  exists lm mg,
    opts !! "margin" = Some (ORef lm) /\ st !! lm = Some (DictObj mg) /\
    mg !! "left" = Some (OVal (PyNum l)) /\
    mg !! "right" = Some (OVal (PyNum r)) /\
    mg !! "top" = Some (OVal (PyNum t)) /\
    mg !! "bottom" = Some (OVal (PyNum b)).

(** The extent of the canvas along the time axis: the inner height under
    [left] and [right], the inner width under any other direction. *)
Definition inner_extent (dir : optval) (iw ih l r t b : Q) : Q :=
  if in_left_right dir then (ih - t - b)%Q else (iw - l - r)%Q.



(** A third construction after [run_up], with another domain. *)
Definition options_late : gmap string optval :=
  {[ "domain" := OList [num 100; num 200] ]}.

Definition run_late : result Timeline * gmap loc obj :=
  Timeline_init 0 (fun extent => extent) constant_extent module_globals
    [record_hello] (Some options_late) "svg" run_up.2.

(** A caller that brings a [labella] dict of its own, at a location of the
    store that the module does not use. *)
Definition loc_own : loc := 7%nat.

Definition store_own : gmap loc obj :=
  <[loc_own := DictObj {[ "nodeSpacing" := OVal (num 3) ]}]> module_store.

Definition options_own : gmap string optval :=
  <["labella" := ORef loc_own]> options_up.

(** The options of a caller that sets the scale to [None]. *)
Definition options_no_scale : gmap string optval :=
  {[ "scale" := OVal PyNone ]}.

(** ** Results and lookups *)

Lemma getitem_Some (m : gmap string optval) k v :
  m !! k = Some v -> getitem m k = Ok v.
Proof. intros H. unfold getitem. by rewrite H. Qed.

Lemma load_global_bound (G : gset string) name :
  name ∈ G -> load_global G name = Ok tt.
Proof. intros H. unfold load_global. by rewrite bool_decide_eq_true_2. Qed.

(** ** Item construction *)

Lemma normalize_time_other today (d d' : gmap string pyval) t k :
  normalize_time today d = Ok (t, d') -> k <> "time" -> d' !! k = d !! k.
Proof.
  unfold normalize_time. intros H Hk.
  destruct (d !! "time") as [[]|]; simplify_eq; try done;
    by rewrite lookup_insert_ne.
Qed.

Lemma normalize_time_field today (d d' : gmap string pyval) t :
  normalize_time today d = Ok (t, d') -> d' !! "time" = Some t.
Proof.
  unfold normalize_time. intros H.
  destruct (d !! "time") as [[]|] eqn:E; simplify_eq; try done;
    by rewrite lookup_insert_eq.
Qed.

Lemma Item_init_sized tm wd txt d mode :
  wd <> PyNone ->
  Item_init tm wd txt d mode =
    Ok (mkItem tm txt wd (PyNum 13) d mode "11pt" PyNone PyNone).
Proof. intros H. unfold Item_init. by destruct wd. Qed.

(** C2, as the code has it: a record whose text accessor yields a non-empty
    text and that carries a width other than [None] becomes an item with that
    width, and with the height 13 of every item that is not sized from its
    text. *)
Theorem parse_item_text_and_width today opts mode
    (d d' : gmap string pyval) t txt w :
  normalize_time today d = Ok (t, d') ->
  textFn opts d' = Ok txt ->
  truthy txt = true ->
  d !! "width" = Some w ->
  w <> PyNone ->
  exists it, parse_item today opts mode d = Ok it /\
    text it = txt /\ width it = w /\ height it = PyNum 13.
Proof.
  intros Hn Ht Htxt Hw Hnone.
  assert (Hw' : d' !! "width" = Some w)
    by (rewrite (normalize_time_other today d d' t) by done; done).
  unfold parse_item. rewrite Hn. simpl. rewrite Ht. simpl.
  rewrite Htxt, Hw'. simpl. rewrite Item_init_sized by done.
  eexists. split; [reflexivity|]. done.
Qed.

Lemma parse_item_text_and_width_witness :
  exists it, parse_item 0 TIMELINE_DEFAULT_OPTIONS "svg" record_jan = Ok it /\
    text it = PyStr "Jan" /\ width it = num 30 /\ height it = PyNum 13.
Proof.
  apply (parse_item_text_and_width 0 TIMELINE_DEFAULT_OPTIONS "svg"
           record_jan record_jan (num 0) (PyStr "Jan") (num 30));
    [reflexivity | reflexivity | reflexivity | reflexivity | discriminate].
Defined.

(** C2, as it is stated, fails on the record
    [{"time": 0, "text": "Jan", "width": 30}]: the text accessor yields
    ["Jan"], the width field is 30, and the item has width 30 but height 13,
    not [TEXT_HEIGHT]. *)
Lemma parse_item_height_not_20 :
  textFn TIMELINE_DEFAULT_OPTIONS record_jan = Ok (PyStr "Jan") /\
  record_jan !! "width" = Some (num 30) /\
  exists it, parse_item 0 TIMELINE_DEFAULT_OPTIONS "svg" record_jan = Ok it /\
    width it = num 30 /\ height it = PyNum 13 /\
    height it <> num TEXT_HEIGHT.
Proof.
  split; [reflexivity|]. split; [reflexivity|].
  eexists. split; [vm_compute; reflexivity|].
  split; [reflexivity|]. split; [reflexivity|]. discriminate.
Qed.

(** A width field that is [None] counts as no width: the item is sized from
    its text. *)
Lemma parse_item_width_None :
  exists it,
    parse_item 0 TIMELINE_DEFAULT_OPTIONS "svg"
      (<["width" := PyNone]> record_jan) = Ok it /\
    width it = num 6 /\ height it = num TEXT_HEIGHT.
Proof. eexists. split; [vm_compute; reflexivity|]. split; reflexivity. Qed.

(** ** The equal-heights pass *)

Lemma constructed_height it :
  constructed it ->
  height it = PyNum 13 \/ (height it = num TEXT_HEIGHT /\ textual it = true).
Proof.
  intros (tm & wd & txt & d & mode & H). unfold Item_init in H.
  destruct (is_none wd && truthy txt) eqn:E.
  - apply andb_true_iff in E as [_ Et].
    unfold get_text_dimensions in H. destruct (py_len txt); simpl in H;
      [|discriminate].
    injection H as <-. right. split; [reflexivity | exact Et].
  - injection H as <-. by left.
Qed.

Lemma max_from_13_or_20 l cur :
  is_13_or_20 cur -> Forall is_13_or_20 l ->
  exists m, max_from cur l = Ok m /\ is_13_or_20 m /\
    (m = num TEXT_HEIGHT <-> cur = num TEXT_HEIGHT \/ num TEXT_HEIGHT ∈ l).
Proof.
  intros Hc Hl. revert cur Hc. induction Hl as [|x l Hx Hl IH]; intros cur Hc.
  - exists cur. split; [reflexivity|]. split; [done|].
    split; [by left | intros [H|H]; [done | by apply elem_of_nil in H]].
  - simpl.
    destruct Hx as [-> | ->], Hc as [-> | ->]; simpl;
      match goal with
      | |- context [max_from ?c l] =>
          destruct (IH c) as (m & Hm & H13 & Hiff);
            [first [by left | by right] |]
      end;
      exists m; (split; [exact Hm|]); (split; [exact H13|]);
      rewrite Hiff, elem_of_cons; unfold num, TEXT_HEIGHT;
      split; intros [H|H]; try discriminate; auto;
      destruct H as [H|H]; try discriminate; auto.
Qed.

Lemma py_gt_13_or_20 v m :
  is_13_or_20 v -> is_13_or_20 m ->
  (v = num TEXT_HEIGHT -> m = num TEXT_HEIGHT) ->
  py_gt v m = Ok false.
Proof.
  intros [-> | ->] [-> | ->] H; try reflexivity.
  specialize (H eq_refl). discriminate.
Qed.

(** C5, as the code has it: on a non-empty list of items as the constructor
    of [Item] leaves them, which are the lists that the constructor of the
    timeline runs the pass on, the equal-heights pass returns; an item that
    carries text gets the maximum height among the items that carry text and
    keeps its other fields, and an item without text is unchanged.  The pass
    takes the maximum over all the items; on these lists an item without
    text has the smallest height, so the two maxima agree. *)
Theorem equal_heights_textual_max (its : list Item) :
  its <> [] ->
  Forall constructed its ->
  exists its', equal_heights its = Ok its' /\
    length its' = length its /\
    forall i it, its !! i = Some it ->
      exists it', its' !! i = Some it' /\
        (textual it = true ->
           max_textual_height (height it') its /\
           it' = set_height (height it') it) /\
        (textual it = false -> it' = it).
Proof.
  intros Hne Hall.
  assert (Hh : Forall is_13_or_20 (height <$> its)).
  { apply Forall_fmap. eapply Forall_impl; [exact Hall|].
    intros it Hit. destruct (constructed_height it Hit) as [H|[H _]];
      [by left | by right]. }
  destruct its as [|it0 its0]; [done|].
  rewrite fmap_cons in Hh. apply Forall_cons in Hh as [Hh0 Hh].
  destruct (max_from_13_or_20 _ _ Hh0 Hh) as (m & Hm & Hm13 & Hiff).
  assert (Hall' : forall it, it ∈ it0 :: its0 ->
            is_13_or_20 (height it) /\
            (height it = num TEXT_HEIGHT -> textual it = true /\ m = num TEXT_HEIGHT)).
  { intros it Hin. pose proof (proj1 (Forall_forall _ _) Hall it Hin) as Hc.
    destruct (constructed_height it Hc) as [H|[H Ht]].
    - split; [by left|]. rewrite H. discriminate.
    - split; [by right|]. intros _. split; [done|].
      apply Hiff. apply elem_of_cons in Hin as [->|Hin]; [by left|].
      right. rewrite <- H. apply list_elem_of_fmap. eauto. }
  eexists. split.
  { unfold equal_heights, py_max. rewrite fmap_cons, Hm. reflexivity. }
  split; [by rewrite length_fmap|].
  intros i it Hi. rewrite list_lookup_fmap, Hi. simpl.
  eexists. split; [reflexivity|].
  unfold textual. split; intros Ht; rewrite Ht; [|done].
  split; [|reflexivity]. simpl. split.
  - destruct Hm13 as [-> | Hm20].
    + exists it. split; [by eapply list_elem_of_lookup_2|]. split; [done|].
      destruct (Hall' it) as [[H|H] H20]; [by eapply list_elem_of_lookup_2|done|].
      destruct (H20 H) as [_ Hc]. discriminate.
    + assert (Hin : num TEXT_HEIGHT ∈ height <$> it0 :: its0).
      { rewrite fmap_cons, elem_of_cons. apply Hiff in Hm20 as [H|H]; auto. }
      apply list_elem_of_fmap in Hin as (it1 & Hh1 & Hin1).
      exists it1. split; [done|]. destruct (Hall' it1 Hin1) as [_ H20].
      destruct (H20 (eq_sym Hh1)) as [Ht1 ->]. done.
  - intros it1 Hin1 _. destruct (Hall' it1 Hin1) as [H13 H20].
    apply py_gt_13_or_20; [done|done|]. intros H. by destruct (H20 H).
Qed.

Lemma example_items_parsed :
  parse_items 0 TIMELINE_DEFAULT_OPTIONS "svg"
    [record_jan; record_hello; record_dot]
  = Ok [item_jan; item_hello; item_dot].
Proof. reflexivity. Qed.

Lemma example_items_constructed :
  Forall constructed [item_jan; item_hello; item_dot].
Proof.
  repeat apply Forall_cons_2; [| | |apply Forall_nil_2].
  - exists (num 0), (num 30), (PyStr "Jan"), record_jan, "svg". reflexivity.
  - exists (num 1), PyNone, (PyStr "Hello"), record_hello, "svg". reflexivity.
  - exists (num 5), (num 50), PyNone, record_dot, "svg". reflexivity.
Qed.

Lemma equal_heights_textual_max_witness :
  exists its', equal_heights [item_jan; item_hello; item_dot] = Ok its' /\
    length its' = length [item_jan; item_hello; item_dot] /\
    forall i it, [item_jan; item_hello; item_dot] !! i = Some it ->
      exists it', its' !! i = Some it' /\
        (textual it = true ->
           max_textual_height (height it') [item_jan; item_hello; item_dot] /\
           it' = set_height (height it') it) /\
        (textual it = false -> it' = it).
Proof.
  apply (equal_heights_textual_max [item_jan; item_hello; item_dot]);
    [discriminate | exact example_items_constructed].
Defined.

(** C5, as it is stated, fails on the list of the label ["Hello"] after
    rotation (width 20, height 10) and a dot of height 13: the pass gives the
    label the height 13 of the dot, which is not the maximum height among the
    items that carry text, whose only height is 10. *)
Lemma equal_heights_not_textual_max :
  exists it',
    equal_heights [set_size (num 20) (num 10) item_hello; item_dot]
    = Ok [it'; item_dot] /\
    textual (set_size (num 20) (num 10) item_hello) = true /\
    height it' = PyNum 13 /\
    ~ max_textual_height (height it')
        [set_size (num 20) (num 10) item_hello; item_dot].
Proof.
  eexists. split; [reflexivity|]. split; [reflexivity|].
  split; [reflexivity|].
  intros [(it & Hin & Ht & Hh) _].
  apply elem_of_cons in Hin as [-> | Hin].
  - discriminate Hh.
  - apply list_elem_of_singleton in Hin as ->. discriminate Ht.
Qed.

(** On the example, the text items end at height 20 and the dot stays at 13. *)
Lemma equal_heights_example :
  equal_heights [item_jan; item_hello; item_dot]
  = Ok [set_height (num 20) item_jan; item_hello; item_dot].
Proof. reflexivity. Qed.

(** ** The rotation pass *)

(** C6: under the directions [left] and [right] the rotation pass swaps the
    width and the height of every item that carries text and leaves the other
    items as they are; under [up] and [down] it leaves every item as it is. *)
Theorem rotate_items_swaps (dir : optval) (its : list Item) :
  ((dir = OVal (PyStr "left") \/ dir = OVal (PyStr "right")) ->
   length (rotate_items dir its) = length its /\
   forall i it, its !! i = Some it ->
     exists it', rotate_items dir its !! i = Some it' /\
       (textual it = true ->
          width it' = height it /\ height it' = width it /\
          it' = set_size (height it) (width it) it) /\
       (textual it = false -> it' = it)) /\
  ((dir = OVal (PyStr "up") \/ dir = OVal (PyStr "down")) ->
   rotate_items dir its = its).
Proof.
  split.
  - intros Hd.
    assert (Hlr : in_left_right dir = true) by (by destruct Hd as [-> | ->]).
    unfold rotate_items. rewrite Hlr. split; [by rewrite length_fmap|].
    intros i it Hi. rewrite list_lookup_fmap, Hi. simpl.
    eexists. split; [reflexivity|]. unfold textual.
    split; intros Ht; rewrite Ht; done.
  - intros Hd.
    assert (Hlr : in_left_right dir = false) by (by destruct Hd as [-> | ->]).
    unfold rotate_items. by rewrite Hlr.
Qed.

Lemma rotate_items_swaps_witness :
  (length (rotate_items (OVal (PyStr "right")) [item_hello; item_dot])
   = length [item_hello; item_dot] /\
   forall i it, [item_hello; item_dot] !! i = Some it ->
     exists it',
       rotate_items (OVal (PyStr "right")) [item_hello; item_dot] !! i
       = Some it' /\
       (textual it = true ->
          width it' = height it /\ height it' = width it /\
          it' = set_size (height it) (width it) it) /\
       (textual it = false -> it' = it)) /\
  rotate_items (OVal (PyStr "up")) [item_hello; item_dot]
  = [item_hello; item_dot].
Proof.
  split.
  - apply (proj1 (rotate_items_swaps (OVal (PyStr "right"))
                    [item_hello; item_dot])).
    right. reflexivity.
  - apply (proj2 (rotate_items_swaps (OVal (PyStr "up"))
                    [item_hello; item_dot])).
    left. reflexivity.
Defined.

(** Any direction other than [left] and [right] leaves the items as they
    are. *)
Lemma rotate_items_other (dir : optval) (its : list Item) :
  in_left_right dir = false -> rotate_items dir its = its.
Proof. intros H. unfold rotate_items. by rewrite H. Qed.

(** ** Node materialization *)

Section Nodes.

Variable project : TimeScale -> pyval -> pyval.
Variables (G : gset string) (st : gmap loc obj) (opts : gmap string optval).
Variables (lp ls : loc) (pad : gmap string optval) (s : TimeScale).
Variables (f dir : optval) (pl pr pt pb : Q).

Hypothesis Node_bound : "Node" ∈ G.
Hypothesis opts_padding : opts !! "labelPadding" = Some (ORef lp).
Hypothesis st_padding : st !! lp = Some (DictObj pad).
Hypothesis pad_left : pad !! "left" = Some (OVal (PyNum pl)).
Hypothesis pad_right : pad !! "right" = Some (OVal (PyNum pr)).
Hypothesis pad_top : pad !! "top" = Some (OVal (PyNum pt)).
Hypothesis pad_bottom : pad !! "bottom" = Some (OVal (PyNum pb)).
Hypothesis opts_scale : opts !! "scale" = Some (ORef ls).
Hypothesis st_scale : st !! ls = Some (ScaleObj s).
Hypothesis opts_timeFn : opts !! "timeFn" = Some f.
Hypothesis opts_direction : opts !! "direction" = Some dir.

Lemma timePos_scale d t :
  call f d = Ok t -> timePos project st opts d = Ok (project s t).
Proof.
  intros Hf. unfold timePos.
  rewrite (getitem_Some _ _ _ opts_scale), (getitem_Some _ _ _ opts_timeFn).
  simpl. rewrite Hf. simpl. by rewrite st_scale.
Qed.

Lemma make_nodes_Ok (its : list Item) :
  Forall (fun it => exists t, call f (data it) = Ok t) its ->
  exists nodes, make_nodes project G st opts its = Ok nodes /\
    Forall2 (fun it n => exists t, call f (data it) = Ok t /\
               n = Node_init (project s t) (width it) it) its nodes.
Proof.
  induction 1 as [|it its [t Ht] _ (nodes & Hn & IH)].
  - exists []. split; [reflexivity | constructor].
  - exists (Node_init (project s t) (width it) it :: nodes). split.
    + simpl. rewrite (load_global_bound _ _ Node_bound). simpl.
      rewrite (timePos_scale _ _ Ht). simpl. rewrite Hn. reflexivity.
    + constructor; [eauto | done].
Qed.

Lemma padding_side side q :
  pad !! side = Some (OVal (PyNum q)) ->
  (getitem opts "labelPadding" ≫= fun p => subscript st p side ≫= as_val)
  = Ok (PyNum q).
Proof.
  intros H. rewrite (getitem_Some _ _ _ opts_padding). simpl.
  rewrite st_padding. by rewrite (getitem_Some _ _ _ H).
Qed.

(** The node that the second loop of [get_nodes] leaves for an item of
    width [wq] and height [hq]. *)
Lemma size_node_Ok pos (it : Item) wq hq :
  width it = PyNum wq -> height it = PyNum hq ->
  size_node st opts (Node_init pos (width it) it)
  = Ok (if in_left_right dir then
          mkNode pos (PyNum (wq + pl + pr)) it
                 (Some (PyNum (hq + pt + pb))) (Some (PyNum (wq + pl + pr)))
                 None None None None None
        else
          mkNode pos (PyNum (wq + pl + pr)) it
                 (Some (PyNum (wq + pl + pr))) (Some (PyNum (hq + pt + pb)))
                 None None None None None).
Proof.
  intros Hw Hh. unfold size_node.
  pose proof (padding_side _ _ pad_left) as Hl.
  pose proof (padding_side _ _ pad_right) as Hr.
  pose proof (padding_side _ _ pad_top) as Ht.
  pose proof (padding_side _ _ pad_bottom) as Hb.
  rewrite (getitem_Some _ _ _ opts_padding) in *. simpl in *.
  rewrite Hl. simpl. rewrite Hw. simpl. rewrite Hr. simpl.
  rewrite Ht. simpl. rewrite Hh. simpl. rewrite Hb. simpl.
  rewrite (getitem_Some _ _ _ opts_direction). simpl.
  by destruct (in_left_right dir).
Qed.

End Nodes.

Lemma get_nodes_Ok (project : TimeScale -> pyval -> pyval)
    (G : gset string) (st : gmap loc obj) (tl : Timeline)
    (lp ls : loc) (pad : gmap string optval) (s : TimeScale)
    (f dir : optval) (pl pr pt pb : Q) :
  "Node" ∈ G ->
  options tl !! "labelPadding" = Some (ORef lp) ->
  st !! lp = Some (DictObj pad) ->
  pad !! "left" = Some (OVal (PyNum pl)) ->
  pad !! "right" = Some (OVal (PyNum pr)) ->
  pad !! "top" = Some (OVal (PyNum pt)) ->
  pad !! "bottom" = Some (OVal (PyNum pb)) ->
  options tl !! "scale" = Some (ORef ls) ->
  st !! ls = Some (ScaleObj s) ->
  options tl !! "timeFn" = Some f ->
  options tl !! "direction" = Some dir ->
  Forall (fun it => (exists t, call f (data it) = Ok t) /\
                    exists wq hq, width it = PyNum wq /\ height it = PyNum hq)
         (items tl) ->
  exists nodes, get_nodes project G st tl = Ok nodes /\
    Forall2 (fun it n => exists t wq hq,
               call f (data it) = Ok t /\
               width it = PyNum wq /\ height it = PyNum hq /\
               n = sized_node project s dir pl pr pt pb it t wq hq)
            (items tl) nodes.
Proof.
  intros HG Hop Hsp Hl Hr Ht Hb Hos Hss Hof Hod Hits.
  destruct (make_nodes_Ok project G st (options tl) ls s f HG Hos Hss Hof
              (items tl)) as (nodes0 & Hmake & Hrel).
  { eapply Forall_impl; [exact Hits|]. by intros it [H _]. }
  unfold get_nodes. rewrite Hmake. simpl. clear Hmake.
  induction Hrel as [|it n0 its ns0 (t & Hcall & ->) _ IH].
  - exists []. split; [reflexivity | constructor].
  - apply Forall_cons in Hits as [[_ (wq & hq & Hw & Hh)] Hits].
    destruct (IH Hits) as (ns & Hns & Hrel').
    pose proof (size_node_Ok st (options tl) lp pad dir pl pr pt pb
                  Hop Hsp Hl Hr Ht Hb Hod (project s t) it wq hq Hw Hh) as Hn.
    eexists. split.
    + simpl. rewrite Hn. simpl. rewrite Hns. reflexivity.
    + constructor; [|done]. exists t, wq, hq. done.
Qed.

(** C7, as the code has it: for a timeline with a scale, numeric paddings
    and items of numeric size whose record the time accessor accepts,
    [get_nodes] returns one node per item, in order.  The node of an item is
    at the scale projection of the value that the configured time accessor
    reads from the record of the item, whatever the [time] of the item is,
    and wraps the item.  Its padded extents are the width plus the left and right
    padding and the height plus the top and bottom padding; under [left] and
    [right] the two are swapped and [width] is the new [h], the padded width,
    and under [up] and [down] they are [w] and [h] and [width] is [w]. *)
Theorem get_nodes_padded (project : TimeScale -> pyval -> pyval)
    (G : gset string) (st : gmap loc obj) (tl : Timeline)
    (lp ls : loc) (pad : gmap string optval) (s : TimeScale)
    (f dir : optval) (pl pr pt pb : Q) :
  "Node" ∈ G ->
  options tl !! "labelPadding" = Some (ORef lp) ->
  st !! lp = Some (DictObj pad) ->
  pad !! "left" = Some (OVal (PyNum pl)) ->
  pad !! "right" = Some (OVal (PyNum pr)) ->
  pad !! "top" = Some (OVal (PyNum pt)) ->
  pad !! "bottom" = Some (OVal (PyNum pb)) ->
  options tl !! "scale" = Some (ORef ls) ->
  st !! ls = Some (ScaleObj s) ->
  options tl !! "timeFn" = Some f ->
  options tl !! "direction" = Some dir ->
  Forall (fun it => (exists t, call f (data it) = Ok t) /\
                    exists wq hq, width it = PyNum wq /\ height it = PyNum hq)
         (items tl) ->
  exists nodes, get_nodes project G st tl = Ok nodes /\
    length nodes = length (items tl) /\
    forall i it, items tl !! i = Some it ->
      exists n t wq hq,
        nodes !! i = Some n /\ n_data n = it /\
        call f (data it) = Ok t /\ n_idealPos n = project s t /\
        width it = PyNum wq /\ height it = PyNum hq /\
        ((dir = OVal (PyStr "left") \/ dir = OVal (PyStr "right")) ->
           n_w n = Some (PyNum (hq + pt + pb)) /\
           n_h n = Some (PyNum (wq + pl + pr)) /\
           n_width n = PyNum (wq + pl + pr)) /\
        ((dir = OVal (PyStr "up") \/ dir = OVal (PyStr "down")) ->
           n_w n = Some (PyNum (wq + pl + pr)) /\
           n_h n = Some (PyNum (hq + pt + pb)) /\
           n_width n = PyNum (wq + pl + pr)).
Proof.
  intros HG Hop Hsp Hl Hr Ht Hb Hos Hss Hof Hod Hits.
  destruct (get_nodes_Ok project G st tl lp ls pad s f dir pl pr pt pb
              HG Hop Hsp Hl Hr Ht Hb Hos Hss Hof Hod Hits)
    as (nodes & Hget & Hfin).
  exists nodes. split; [exact Hget|].
  split; [symmetry; by eapply Forall2_length|].
  intros i it Hi.
  destruct (Forall2_lookup_l _ _ _ _ _ Hfin Hi)
    as (n & Hn & t & wq & hq & Hcall & Hw & Hh & Hsz).
  exists n, t, wq, hq. split; [exact Hn|]. subst n. unfold sized_node.
  split; [by destruct (in_left_right dir)|].
  split; [done|]. split; [by destruct (in_left_right dir)|].
  split; [done|]. split; [done|].
  split; intros [-> | ->]; done.
Qed.

Lemma example_run_returns :
  example_run.1 = Ok example_timeline /\
  direction example_timeline = OVal (PyStr "right") /\
  items example_timeline
  = [set_size (num 20) (num 10) item_hello; item_dot].
Proof. vm_compute. auto. Qed.

Lemma get_nodes_padded_witness :
  exists nodes,
    get_nodes stand_in_project module_globals example_store example_timeline
    = Ok nodes /\
    length nodes = length (items example_timeline) /\
    forall i it, items example_timeline !! i = Some it ->
      exists n t wq hq,
        nodes !! i = Some n /\ n_data n = it /\
        call (OFn default_timeFn) (data it) = Ok t /\
        n_idealPos n
        = stand_in_project (mkScale [num 0; num 10] [num 0; num 360]) t /\
        width it = PyNum wq /\ height it = PyNum hq /\
        ((OVal (PyStr "right") = OVal (PyStr "left") \/
          OVal (PyStr "right") = OVal (PyStr "right")) ->
           n_w n = Some (PyNum (hq + 3 + 2)) /\
           n_h n = Some (PyNum (wq + 2 + 2)) /\
           n_width n = PyNum (wq + 2 + 2)) /\
        ((OVal (PyStr "right") = OVal (PyStr "up") \/
          OVal (PyStr "right") = OVal (PyStr "down")) ->
           n_w n = Some (PyNum (wq + 2 + 2)) /\
           n_h n = Some (PyNum (hq + 3 + 2)) /\
           n_width n = PyNum (wq + 2 + 2)).
Proof.
  apply (get_nodes_padded stand_in_project module_globals example_store
           example_timeline loc_labelPadding loc_scale default_labelPadding
           (mkScale [num 0; num 10] [num 0; num 360])
           (OFn default_timeFn) (OVal (PyStr "right")) 2 2 3 2).
  - vm_compute. reflexivity.
  - vm_compute. reflexivity.
  - vm_compute. reflexivity.
  - vm_compute. reflexivity.
  - vm_compute. reflexivity.
  - vm_compute. reflexivity.
  - vm_compute. reflexivity.
  - vm_compute. reflexivity.
  - vm_compute. reflexivity.
  - vm_compute. reflexivity.
  - vm_compute. reflexivity.
  - repeat apply Forall_cons_2; [| |apply Forall_nil_2].
    + split; [by eexists|]. exists 20%Q, 10%Q. split; reflexivity.
    + split; [by eexists|]. exists 50%Q, 13%Q. split; reflexivity.
Defined.

(** C7, as it is stated, fails on a timeline whose time accessor reads the
    key ["start"]: for the record [{"time": 5, "start": 9}] the item has the
    time 5 and its node is at the projection of 9, which, with a scale that
    projects a time to itself, is not the projection of the time of the
    item. *)
Lemma get_nodes_not_at_item_time :
  run_start.1 = Ok timeline_start /\
  exists it n,
    items timeline_start = [it] /\ time it = num 5 /\
    get_nodes stand_in_project module_globals run_start.2 timeline_start
    = Ok [n] /\
    n_data n = it /\
    n_idealPos n = num 9 /\
    forall s, n_idealPos n <> stand_in_project s (time it).
Proof.
  split; [vm_compute; reflexivity|].
  eexists _, _. split; [vm_compute; reflexivity|].
  split; [reflexivity|]. split; [vm_compute; reflexivity|].
  split; [reflexivity|]. split; [reflexivity|].
  intros s H. discriminate H.
Qed.

(** ** Anchor positions *)

(** C8: for a node whose [x], [y], [dx], [dy] and [w] are numbers, the anchor
    is [(x, y - dy/2)] under [right], [(x - w + dx, y - dy/2)] under [left]
    and [(x - dx/2, y)] under [up] and under [down]. *)
Theorem nodePos_anchor (d : Node) (nodeHeight : pyval) (x y dx dy w : Q) :
  n_x d = Some (PyNum x) ->
  n_y d = Some (PyNum y) ->
  n_dx d = Some (PyNum dx) ->
  n_dy d = Some (PyNum dy) ->
  n_w d = Some (PyNum w) ->
  nodePos (OVal (PyStr "right")) d nodeHeight
  = Ok (Some (PyNum x, PyNum (y - dy / 2))) /\
  nodePos (OVal (PyStr "left")) d nodeHeight
  = Ok (Some (PyNum (x - w + dx), PyNum (y - dy / 2))) /\
  nodePos (OVal (PyStr "up")) d nodeHeight
  = Ok (Some (PyNum (x - dx / 2), PyNum y)) /\
  nodePos (OVal (PyStr "down")) d nodeHeight
  = Ok (Some (PyNum (x - dx / 2), PyNum y)).
Proof.
  intros Hx Hy Hdx Hdy Hw. unfold nodePos. simpl.
  rewrite Hx, Hy, Hdx, Hdy, Hw. simpl. done.
Qed.

Lemma nodePos_anchor_witness :
  nodePos (OVal (PyStr "right")) node_laid_out PyNone
  = Ok (Some (PyNum 100, PyNum (40 - 8 / 2))) /\
  nodePos (OVal (PyStr "left")) node_laid_out PyNone
  = Ok (Some (PyNum (100 - 14 + 6), PyNum (40 - 8 / 2))) /\
  nodePos (OVal (PyStr "up")) node_laid_out PyNone
  = Ok (Some (PyNum (100 - 6 / 2), PyNum 40)) /\
  nodePos (OVal (PyStr "down")) node_laid_out PyNone
  = Ok (Some (PyNum (100 - 6 / 2), PyNum 40)).
Proof.
  apply (nodePos_anchor node_laid_out PyNone 100 40 6 8 14); reflexivity.
Defined.

Lemma eq_str_other (o : optval) (s : string) :
  o <> OVal (PyStr s) -> eq_str o s = false.
Proof.
  intros H. destruct o as [[]| | |]; simpl; try done.
  destruct (String.eqb_spec s0 s); congruence.
Qed.

(** C3, on the code: under a direction that is none of [right], [left],
    [up] and [down], [nodePos] falls off the end of its chain of tests and
    returns [None], for every node; no exception is raised. *)
Theorem nodePos_unknown_direction_returns_None
    (dir : optval) (d : Node) (nodeHeight : pyval) :
  dir <> OVal (PyStr "right") ->
  dir <> OVal (PyStr "left") ->
  dir <> OVal (PyStr "up") ->
  dir <> OVal (PyStr "down") ->
  nodePos dir d nodeHeight = Ok None.
Proof.
  intros H1 H2 H3 H4. unfold nodePos.
  by rewrite !eq_str_other.
Qed.

(** The constructor accepts the direction ["diagonal"], and the anchor of a
    node of that timeline is [None]. *)
Lemma nodePos_unknown_direction_returns_None_witness :
  exists tl,
    (Timeline_init 0 (fun extent => extent) constant_extent module_globals
       [record_dot]
       (Some (<["direction" := OVal (PyStr "diagonal")]> options_domain))
       "svg" module_store).1 = Ok tl /\
    direction tl = OVal (PyStr "diagonal") /\
    nodePos (direction tl) node_laid_out PyNone = Ok None.
Proof.
  eexists. split; [vm_compute; reflexivity|]. split; [reflexivity|].
  apply (nodePos_unknown_direction_returns_None
           (OVal (PyStr "diagonal")) node_laid_out PyNone);
    discriminate.
Defined.

(** ** Style resolution *)

(** C9: when the option is a non-empty list, [colorFunc] returns its element
    at index [i mod n], for every integer [i]; with a list of three elements
    and [i = 4] this is the element at index 1. *)
Theorem colorFunc_list_modulo (d3_functor : optval -> optval)
    (G : gset string) (opts : gmap string optval) (colorName : string)
    (thedict : gmap string pyval) :
  (forall (l : list pyval) (i : Z),
     opts !! colorName = Some (OList l) -> l <> [] ->
     exists v, l !! Z.to_nat (i mod Z.of_nat (length l)) = Some v /\
       (0 <= i mod Z.of_nat (length l) < Z.of_nat (length l)) /\
       colorFunc d3_functor G opts colorName thedict i = Ok v) /\
  (forall a b c : pyval,
     opts !! colorName = Some (OList [a; b; c]) ->
     colorFunc d3_functor G opts colorName thedict 4 = Ok b).
Proof.
  split.
  - intros l i Hl Hne. unfold colorFunc.
    rewrite (getitem_Some _ _ _ Hl). simpl.
    assert (Hlen : 0 < Z.of_nat (length l)) by (destruct l; [done | simpl; lia]).
    pose proof (Z.mod_pos_bound i _ Hlen) as Hmod.
    destruct (Z.eqb_spec (Z.of_nat (length l)) 0) as [H0|_]; [lia|].
    destruct (lookup_lt_is_Some_2 l (Z.to_nat (i mod Z.of_nat (length l))))
      as [v Hv]; [lia|].
    exists v. rewrite Hv. done.
  - intros a b c Hl. unfold colorFunc.
    rewrite (getitem_Some _ _ _ Hl). reflexivity.
Qed.

Lemma colorFunc_list_modulo_witness :
  (exists v,
     [PyStr "red"; PyStr "green"; PyStr "blue"]
       !! Z.to_nat (-2 mod Z.of_nat 3) = Some v /\
     (0 <= -2 mod Z.of_nat 3 < Z.of_nat 3) /\
     colorFunc functor_of module_globals
       (<["dotColor" := OList [PyStr "red"; PyStr "green"; PyStr "blue"]]>
          TIMELINE_DEFAULT_OPTIONS)
       "dotColor" record_dot (-2) = Ok v) /\
  colorFunc functor_of module_globals
    (<["dotColor" := OList [PyStr "red"; PyStr "green"; PyStr "blue"]]>
       TIMELINE_DEFAULT_OPTIONS)
    "dotColor" record_dot 4 = Ok (PyStr "green").
Proof.
  pose proof (colorFunc_list_modulo functor_of module_globals
    (<["dotColor" := OList [PyStr "red"; PyStr "green"; PyStr "blue"]]>
       TIMELINE_DEFAULT_OPTIONS)
    "dotColor" record_dot) as [Hgen Hthree].
  split.
  - apply (Hgen [PyStr "red"; PyStr "green"; PyStr "blue"] (-2));
      [reflexivity | discriminate].
  - apply (Hthree (PyStr "red") (PyStr "green") (PyStr "blue")).
    reflexivity.
Defined.

(** An empty list as the option makes the index computation divide by
    zero. *)
Lemma colorFunc_empty_list (d3_functor : optval -> optval) (G : gset string)
    (opts : gmap string optval) colorName thedict i :
  opts !! colorName = Some (OList []) ->
  colorFunc d3_functor G opts colorName thedict i = Raise ZeroDivisionError.
Proof.
  intros H. unfold colorFunc. by rewrite (getitem_Some _ _ _ H).
Qed.

(** C4, on the code: with a constant as the option, [colorFunc] reaches the
    name [d3_functor], which no statement of the module binds, and raises
    [NameError], for every constant, record and index. *)
Theorem colorFunc_constant_NameError (d3_functor : optval -> optval)
    (opts : gmap string optval) (colorName : string) (v : pyval)
    (thedict : gmap string pyval) (i : Z) :
  colorFunc d3_functor module_globals (<[colorName := OVal v]> opts)
    colorName thedict i
  = Raise (NameError "d3_functor").
Proof.
  unfold colorFunc, getitem. rewrite lookup_insert_eq. reflexivity.
Qed.

(** Were the name bound to the functor of the documentation, a constant
    would be returned as it is. *)
Lemma colorFunc_constant_bound (G : gset string)
    (opts : gmap string optval) colorName (v : pyval) thedict i :
  "d3_functor" ∈ G ->
  opts !! colorName = Some (OVal v) ->
  colorFunc functor_of G opts colorName thedict i = Ok v.
Proof.
  intros HG H. unfold colorFunc. rewrite (getitem_Some _ _ _ H). simpl.
  rewrite (load_global_bound _ _ HG). reflexivity.
Qed.

(** ** The layout pipeline *)

Lemma max_from_numeric (qs : list Q) (q : Q) :
  exists m, max_from (PyNum q) (PyNum <$> qs) = Ok (PyNum m).
Proof.
  revert q. induction qs as [|x qs IH]; intros q.
  - by exists q.
  - simpl. destruct (Qltb q x); apply IH.
Qed.

Lemma py_max_numeric (qs : list Q) :
  qs <> [] -> exists m, py_max (PyNum <$> qs) = Ok (PyNum m).
Proof. destruct qs as [|q qs]; [done|]. intros _. apply max_from_numeric. Qed.

Lemma attrs_numeric name (f : Node -> option pyval) (nodes : list Node) :
  Forall (fun n => exists q, f n = Some (PyNum q)) nodes ->
  exists qs, attrs name f nodes = Ok (PyNum <$> qs) /\
    length qs = length nodes.
Proof.
  induction 1 as [|n nodes [q Hq] _ (qs & Hqs & Hlen)].
  - by exists [].
  - exists (q :: qs). simpl. rewrite Hq. simpl. rewrite Hqs. simpl.
    by rewrite Hlen.
Qed.

(** Every path through [compute] ends in an exception in the namespace of
    the module: the name [Renderer] is on all of them. *)
Lemma compute_never_returns (project : TimeScale -> pyval -> pyval)
    (resolve : gmap loc obj -> optval -> list Node -> result (list Node))
    (layout : Renderer -> list Node -> result (list Node))
    (st : gmap loc obj) (tl : Timeline) :
  exists e, compute project resolve layout module_globals st tl = Raise e.
Proof.
  unfold compute.
  destruct (get_nodes project module_globals st tl) as [nodes|e]; simpl;
    [|by eexists].
  match goal with
  | |- context [mbind _ ?m] => destruct m as [h|e]; simpl; [|by eexists]
  end.
  by eexists.
Qed.

(** The maximum that [compute] takes over the nodes of [get_nodes]. *)
Lemma nodeHeight_Ok (project : TimeScale -> pyval -> pyval) (s : TimeScale)
    (f dir : optval) (pl pr pt pb : Q) (its : list Item) (nodes : list Node)
    (b : bool) :
  its <> [] ->
  Forall2 (fun it n => exists t wq hq,
             call f (data it) = Ok t /\
             width it = PyNum wq /\ height it = PyNum hq /\
             n = sized_node project s dir pl pr pt pb it t wq hq)
          its nodes ->
  exists h,
    (if b then attrs "w" n_w nodes ≫= py_max
     else attrs "h" n_h nodes ≫= py_max) = Ok (PyNum h).
Proof.
  intros Hne Hrel.
  assert (Hlen : length nodes = length its) by (symmetry; by eapply Forall2_length).
  assert (Hw : Forall (fun n => exists q, n_w n = Some (PyNum q)) nodes).
  { apply Forall_forall. intros n Hn.
    apply list_elem_of_lookup in Hn as [i Hi].
    destruct (Forall2_lookup_r _ _ _ _ _ Hrel Hi)
      as (it & _ & t & wq & hq & _ & _ & _ & ->).
    unfold sized_node. destruct (in_left_right dir); by eexists. }
  assert (Hh : Forall (fun n => exists q, n_h n = Some (PyNum q)) nodes).
  { apply Forall_forall. intros n Hn.
    apply list_elem_of_lookup in Hn as [i Hi].
    destruct (Forall2_lookup_r _ _ _ _ _ Hrel Hi)
      as (it & _ & t & wq & hq & _ & _ & _ & ->).
    unfold sized_node. destruct (in_left_right dir); by eexists. }
  destruct (attrs_numeric "w" n_w nodes Hw) as (ws & Hws & Hlw).
  destruct (attrs_numeric "h" n_h nodes Hh) as (hs & Hhs & Hlh).
  destruct b.
  - rewrite Hws. simpl. apply py_max_numeric.
    intros ->. destruct its; [done | simpl in *; lia].
  - rewrite Hhs. simpl. apply py_max_numeric.
    intros ->. destruct its; [done | simpl in *; lia].
Qed.

(** C1, on the code: for a timeline with a scale, numeric paddings and a
    non-empty list of items of numeric size, [compute] materializes the nodes
    and takes their maximum extent, and then raises [NameError]: the name
    [Renderer] is bound by no statement of the module.  It returns neither
    the nodes nor a renderer. *)
Theorem compute_NameError_Renderer (project : TimeScale -> pyval -> pyval)
    (resolve : gmap loc obj -> optval -> list Node -> result (list Node))
    (layout : Renderer -> list Node -> result (list Node))
    (st : gmap loc obj) (tl : Timeline)
    (lp ls : loc) (pad : gmap string optval) (s : TimeScale)
    (f dir : optval) (pl pr pt pb : Q) :
  options tl !! "labelPadding" = Some (ORef lp) ->
  st !! lp = Some (DictObj pad) ->
  pad !! "left" = Some (OVal (PyNum pl)) ->
  pad !! "right" = Some (OVal (PyNum pr)) ->
  pad !! "top" = Some (OVal (PyNum pt)) ->
  pad !! "bottom" = Some (OVal (PyNum pb)) ->
  options tl !! "scale" = Some (ORef ls) ->
  st !! ls = Some (ScaleObj s) ->
  options tl !! "timeFn" = Some f ->
  options tl !! "direction" = Some dir ->
  Forall (fun it => (exists t, call f (data it) = Ok t) /\
                    exists wq hq, width it = PyNum wq /\ height it = PyNum hq)
         (items tl) ->
  items tl <> [] ->
  compute project resolve layout module_globals st tl
  = Raise (NameError "Renderer").
Proof.
  intros Hop Hsp Hl Hr Ht Hb Hos Hss Hof Hod Hits Hne.
  assert (HG : "Node" ∈ module_globals) by (vm_compute; reflexivity).
  destruct (get_nodes_Ok project module_globals st tl lp ls pad s f dir
              pl pr pt pb HG Hop Hsp Hl Hr Ht Hb Hos Hss Hof Hod Hits)
    as (nodes & Hget & Hrel).
  destruct (nodeHeight_Ok project s f dir pl pr pt pb (items tl) nodes
              (in_left_right (direction tl)) Hne Hrel) as [h Hh].
  unfold compute. rewrite Hget. simpl. rewrite Hh. reflexivity.
Qed.

Lemma compute_NameError_Renderer_witness :
  compute stand_in_project (fun _ _ nodes => Ok nodes)
    (fun _ nodes => Ok nodes) module_globals example_store example_timeline
  = Raise (NameError "Renderer").
Proof.
  apply (compute_NameError_Renderer stand_in_project
           (fun _ _ nodes => Ok nodes) (fun _ nodes => Ok nodes)
           example_store example_timeline
           loc_labelPadding loc_scale default_labelPadding
           (mkScale [num 0; num 10] [num 0; num 360])
           (OFn default_timeFn) (OVal (PyStr "right")) 2 2 3 2).
  - vm_compute. reflexivity.
  - vm_compute. reflexivity.
  - vm_compute. reflexivity.
  - vm_compute. reflexivity.
  - vm_compute. reflexivity.
  - vm_compute. reflexivity.
  - vm_compute. reflexivity.
  - vm_compute. reflexivity.
  - vm_compute. reflexivity.
  - vm_compute. reflexivity.
  - repeat apply Forall_cons_2; [| |apply Forall_nil_2].
    + split; [by eexists|]. exists 20%Q, 10%Q. split; reflexivity.
    + split; [by eexists|]. exists 50%Q, 13%Q. split; reflexivity.
  - vm_compute. discriminate.
Defined.

(** Were [Renderer] bound, as [Node] and [Force] are, to a renderer whose
    [layout] returns the nodes it is given, and with a resolver that returns
    as many nodes as it is given, [compute] would return one node per item
    and the renderer of the two layout passes. *)
Lemma compute_with_Renderer_bound (project : TimeScale -> pyval -> pyval)
    (resolve : gmap loc obj -> optval -> list Node -> result (list Node))
    (layout : Renderer -> list Node -> result (list Node))
    (G : gset string) (st : gmap loc obj) (tl : Timeline)
    (lp ls : loc) (pad : gmap string optval) (s : TimeScale)
    (f dir gap lab : optval) (pl pr pt pb : Q) :
  "Node" ∈ G -> "Renderer" ∈ G -> "Force" ∈ G ->
  (forall r ns, exists ns',
      layout r ns = Ok ns' /\ length ns' = length ns) ->
  (forall o ns, exists ns',
      resolve st o ns = Ok ns' /\ length ns' = length ns) ->
  options tl !! "layerGap" = Some gap ->
  options tl !! "labella" = Some lab ->
  options tl !! "labelPadding" = Some (ORef lp) ->
  st !! lp = Some (DictObj pad) ->
  pad !! "left" = Some (OVal (PyNum pl)) ->
  pad !! "right" = Some (OVal (PyNum pr)) ->
  pad !! "top" = Some (OVal (PyNum pt)) ->
  pad !! "bottom" = Some (OVal (PyNum pb)) ->
  options tl !! "scale" = Some (ORef ls) ->
  st !! ls = Some (ScaleObj s) ->
  options tl !! "timeFn" = Some f ->
  options tl !! "direction" = Some dir ->
  Forall (fun it => (exists t, call f (data it) = Ok t) /\
                    exists wq hq, width it = PyNum wq /\ height it = PyNum hq)
         (items tl) ->
  items tl <> [] ->
  exists nodes h,
    compute project resolve layout G st tl
    = Ok (nodes, mkRenderer (PyNum h) gap dir) /\
    length nodes = length (items tl).
Proof.
  intros HN HR HF Hlay Hres Hgap Hlab Hop Hsp Hl Hr Ht Hb Hos Hss Hof Hod
         Hits Hne.
  destruct (get_nodes_Ok project G st tl lp ls pad s f dir
              pl pr pt pb HN Hop Hsp Hl Hr Ht Hb Hos Hss Hof Hod Hits)
    as (nodes & Hget & Hrel).
  destruct (nodeHeight_Ok project s f dir pl pr pt pb (items tl) nodes
              (in_left_right (direction tl)) Hne Hrel) as [h Hh].
  destruct (Hlay (mkRenderer (PyNum h) gap dir) nodes) as (n1 & Hn1 & Hl1).
  destruct (Hres lab n1) as (n2 & Hn2 & Hl2).
  destruct (Hlay (mkRenderer (PyNum h) gap dir) n2) as (n3 & Hn3 & Hl3).
  exists n3, h. split.
  - unfold compute. rewrite Hget. simpl. rewrite Hh. simpl.
    rewrite (load_global_bound _ _ HR). simpl.
    rewrite (getitem_Some _ _ _ Hgap), (getitem_Some _ _ _ Hod). simpl.
    rewrite Hn1. simpl. rewrite (load_global_bound _ _ HF). simpl.
    rewrite (getitem_Some _ _ _ Hlab). simpl. rewrite Hn2. simpl.
    rewrite Hn3. reflexivity.
  - rewrite Hl3, Hl2, Hl1. symmetry. by eapply Forall2_length.
Qed.

(** ** The constructor and the shared defaults *)

Lemma keeps_dicts_ret {A} (a : A) : keeps_dicts (mret a : M A).
Proof. by intros st l d H. Qed.

Lemma keeps_dicts_reads {A} (f : gmap loc obj -> result A) :
  keeps_dicts (reads f).
Proof. by intros st l d H. Qed.

Lemma keeps_dicts_bind {A B} (m : M A) (k : A -> M B) :
  keeps_dicts m -> (forall a, keeps_dicts (k a)) -> keeps_dicts (m ≫= k).
Proof.
  intros Hm Hk st l d H. specialize (Hm st l d H).
  unfold mbind, M_bind. destruct (m st) as [[a|e] st']; simpl in *.
  - by apply Hk.
  - done.
Qed.

Lemma keeps_dicts_scale_update l method update :
  keeps_dicts (scale_update l method update).
Proof.
  intros st l' d H. unfold scale_update.
  destruct (st !! l) as [[m|s]|] eqn:E; simpl; try done.
  rewrite lookup_insert_ne; [done|]. intros ->. congruence.
Qed.

Lemma keeps_dicts_init_axis nice d3_extent G opts dicts :
  keeps_dicts (init_axis nice d3_extent G opts dicts).
Proof.
  unfold init_axis, scale_domain, scale_range, scale_nice.
  apply keeps_dicts_bind; [apply keeps_dicts_reads|]. intros dom.
  apply keeps_dicts_bind; [apply keeps_dicts_reads|]. intros truth.
  apply keeps_dicts_bind.
  - destruct truth.
    + apply keeps_dicts_bind; [apply keeps_dicts_reads|]. intros l.
      apply keeps_dicts_bind; [apply keeps_dicts_reads|]. intros dom'.
      destruct dom'; first [apply keeps_dicts_reads
                           | apply keeps_dicts_scale_update].
    + apply keeps_dicts_bind; [apply keeps_dicts_reads|]. intros l.
      apply keeps_dicts_bind; [apply keeps_dicts_reads|]. intros extent.
      apply keeps_dicts_bind; [apply keeps_dicts_scale_update|]. intros _.
      apply keeps_dicts_bind; [apply keeps_dicts_reads|]. intros l'.
      apply keeps_dicts_scale_update.
  - intros _.
    apply keeps_dicts_bind; [apply keeps_dicts_reads|]. intros [iw ih].
    apply keeps_dicts_bind; [apply keeps_dicts_reads|]. intros dir.
    apply keeps_dicts_bind; [apply keeps_dicts_reads|]. intros l.
    destruct (in_left_right dir); apply keeps_dicts_scale_update.
Qed.

Lemma keeps_dicts_Timeline_init_rest today nice d3_extent G dicts opts dir mode :
  keeps_dicts (Timeline_init_rest today nice d3_extent G dicts opts dir mode).
Proof.
  unfold Timeline_init_rest.
  apply keeps_dicts_bind; [apply keeps_dicts_reads|]. intros its.
  apply keeps_dicts_bind; [apply keeps_dicts_reads|]. intros its'.
  apply keeps_dicts_bind; [apply keeps_dicts_init_axis|]. intros _.
  apply keeps_dicts_ret.
Qed.

(** A timeline that the rest of the constructor returns has the options and
    the direction that it was given. *)
Lemma Timeline_init_rest_returns today nice d3_extent G dicts opts dir mode
    st tl :
  (Timeline_init_rest today nice d3_extent G dicts opts dir mode st).1 = Ok tl ->
  options tl = opts /\ direction tl = dir.
Proof.
  unfold Timeline_init_rest, mbind, M_bind, reads, mret, M_ret.
  destruct (parse_items today opts mode dicts) as [its|]; simpl; [|done].
  destruct (equal_heights its) as [its'|]; simpl; [|done].
  destruct (init_axis _ _ _ _ _ _) as [[[]|] st']; simpl; [|done].
  intros [= <-]. done.
Qed.

Lemma merged_options_labella caller :
  omits "labella" caller ->
  merged_options caller !! "labella" = Some (ORef loc_labella).
Proof.
  unfold omits, merged_options. destruct caller as [o|]; [|done].
  intros Ho. case_bool_decide; [done|].
  by rewrite lookup_union_r.
Qed.

Lemma merged_options_direction caller :
  merged_options caller !! "direction" = Some (direction_of caller).
Proof.
  unfold merged_options, direction_of. destruct caller as [o|]; [|done].
  case_bool_decide as Ho.
  - subst o. by rewrite lookup_empty.
  - destruct (o !! "direction") as [d|] eqn:E; simpl.
    + by apply lookup_union_Some_l.
    + by rewrite lookup_union_r.
Qed.

(** One construction that omits ["labella"]: the write lands in the dict of
    the defaults, whether the rest of the constructor returns or raises. *)
Lemma Timeline_init_labella today nice d3_extent G dicts caller mode st m :
  omits "labella" caller ->
  st !! loc_labella = Some (DictObj m) ->
  (Timeline_init today nice d3_extent G dicts caller mode st).2 !! loc_labella
  = Some (DictObj (<["direction" := direction_of caller]> m)) /\
  forall tl,
    (Timeline_init today nice d3_extent G dicts caller mode st).1 = Ok tl ->
    direction tl = direction_of caller /\
    options tl !! "labella" = Some (ORef loc_labella).
Proof.
  intros Ho Hst.
  pose proof (merged_options_labella caller Ho) as Hlab.
  pose proof (merged_options_direction caller) as Hdir.
  unfold Timeline_init, mbind, M_bind, reads, writes.
  rewrite (getitem_Some _ _ _ Hdir), (getitem_Some _ _ _ Hlab). simpl.
  rewrite Hst.
  set (st1 := <[loc_labella := _]> st).
  pose proof (keeps_dicts_Timeline_init_rest today nice d3_extent G dicts
                (merged_options caller) (direction_of caller) mode st1
                loc_labella _ (lookup_insert_eq _ _ _)) as Hkeep.
  pose proof (Timeline_init_rest_returns today nice d3_extent G dicts
                (merged_options caller) (direction_of caller) mode st1) as Hret.
  destruct (Timeline_init_rest _ _ _ _ _ _ _ _ st1) as [[tl|e] st2];
    simpl in *.
  - split; [exact Hkeep|]. intros tl' [= <-].
    destruct (Hret tl eq_refl) as [-> ->]. done.
  - split; [exact Hkeep | done].
Qed.

(** Before any timeline is constructed, the [labella] dict of the defaults
    has no direction. *)
Lemma default_labella_direction_initial :
  default_labella_direction module_store = Raise (KeyError "direction").
Proof. reflexivity. Qed.

(** C10: a construction whose options omit ["labella"] writes the direction
    of the timeline into the [labella] dict of the module defaults, because
    the options of the timeline hold the reference of the defaults.  The
    write is there whether the constructor returns or raises; it is read
    through the defaults and through the timeline.  A timeline constructed
    afterwards that omits ["labella"] too holds the same dict and writes its
    own direction into it, which the first timeline then reads as well. *)
Theorem labella_default_shared (today : Z)
    (nice : list pyval -> list pyval)
    (d3_extent : list (gmap string pyval) -> optval -> result (list pyval))
    (G : gset string) (dicts1 dicts2 : list (gmap string pyval))
    (caller1 caller2 : option (gmap string optval)) (mode1 mode2 : string)
    (st : gmap loc obj) (m : gmap string optval) :
  omits "labella" caller1 ->
  omits "labella" caller2 ->
  st !! loc_labella = Some (DictObj m) ->
  let r1 := Timeline_init today nice d3_extent G dicts1 caller1 mode1 st in
  let r2 := Timeline_init today nice d3_extent G dicts2 caller2 mode2 r1.2 in
  default_labella_direction r1.2 = Ok (direction_of caller1) /\
  (forall tl1, r1.1 = Ok tl1 ->
     direction tl1 = direction_of caller1 /\
     options tl1 !! "labella" = TIMELINE_DEFAULT_OPTIONS !! "labella" /\
     labella_direction r1.2 tl1 = Ok (direction tl1)) /\
  default_labella_direction r2.2 = Ok (direction_of caller2) /\
  (forall tl2, r2.1 = Ok tl2 ->
     direction tl2 = direction_of caller2 /\
     options tl2 !! "labella" = TIMELINE_DEFAULT_OPTIONS !! "labella" /\
     labella_direction r2.2 tl2 = Ok (direction tl2)) /\
  (forall tl1, r1.1 = Ok tl1 ->
     labella_direction r2.2 tl1 = Ok (direction_of caller2)).
Proof.
  intros Ho1 Ho2 Hst r1 r2.
  destruct (Timeline_init_labella today nice d3_extent G dicts1 caller1 mode1
              st m Ho1 Hst) as [Hst1 Htl1].
  fold r1 in Hst1, Htl1.
  destruct (Timeline_init_labella today nice d3_extent G dicts2 caller2 mode2
              r1.2 _ Ho2 Hst1) as [Hst2 Htl2].
  fold r2 in Hst2, Htl2.
  assert (Hread : forall st' d' dir,
            st' !! loc_labella = Some (DictObj (<["direction" := dir]> d')) ->
            subscript st' (ORef loc_labella) "direction" = Ok dir).
  { intros st' d' dir H. unfold subscript, getitem.
    by rewrite H, lookup_insert_eq. }
  split; [exact (Hread _ _ _ Hst1)|].
  split.
  { intros tl1 H1. destruct (Htl1 tl1 H1) as [Hd Hl].
    split; [done|]. split; [done|].
    unfold labella_direction. rewrite (getitem_Some _ _ _ Hl). simpl.
    rewrite Hd. exact (Hread _ _ _ Hst1). }
  split; [exact (Hread _ _ _ Hst2)|].
  split.
  { intros tl2 H2. destruct (Htl2 tl2 H2) as [Hd Hl].
    split; [done|]. split; [done|].
    unfold labella_direction. rewrite (getitem_Some _ _ _ Hl). simpl.
    rewrite Hd. exact (Hread _ _ _ Hst2). }
  intros tl1 H1. destruct (Htl1 tl1 H1) as [Hd Hl].
  unfold labella_direction. rewrite (getitem_Some _ _ _ Hl). simpl.
  exact (Hread _ _ _ Hst2).
Qed.

Lemma labella_default_shared_witness :
  default_labella_direction run_up.2 = Ok (OVal (PyStr "up")) /\
  (forall tl1, run_up.1 = Ok tl1 ->
     direction tl1 = OVal (PyStr "up") /\
     options tl1 !! "labella" = TIMELINE_DEFAULT_OPTIONS !! "labella" /\
     labella_direction run_up.2 tl1 = Ok (direction tl1)) /\
  default_labella_direction run_default.2 = Ok (OVal (PyStr "right")) /\
  (forall tl2, run_default.1 = Ok tl2 ->
     direction tl2 = OVal (PyStr "right") /\
     options tl2 !! "labella" = TIMELINE_DEFAULT_OPTIONS !! "labella" /\
     labella_direction run_default.2 tl2 = Ok (direction tl2)) /\
  (forall tl1, run_up.1 = Ok tl1 ->
     labella_direction run_default.2 tl1 = Ok (OVal (PyStr "right"))).
Proof.
  apply (labella_default_shared 0 (fun extent => extent) constant_extent
           module_globals [record_dot] [record_dot] (Some options_up) None
           "svg" "svg" module_store ∅);
    [reflexivity | exact I | reflexivity].
Defined.

(** Both constructions of the example return a timeline. *)
Lemma run_up_returns :
  exists tl1 tl2, run_up.1 = Ok tl1 /\ run_default.1 = Ok tl2 /\
    direction tl1 = OVal (PyStr "up") /\
    direction tl2 = OVal (PyStr "right") /\
    labella_direction run_default.2 tl1 = Ok (OVal (PyStr "right")).
Proof. vm_compute. eexists _, _. repeat split. Qed.

(** * Further properties of the code *)

(** ** Parsing the records *)

Lemma parse_item_Ok_inv today opts mode (d : gmap string pyval) it :
  parse_item today opts mode d = Ok it ->
  exists t d', normalize_time today d = Ok (t, d') /\
    time it = t /\ data it = d' /\ output_mode it = mode /\
    textFn opts d' = Ok (text it).
Proof.
  unfold parse_item. intros H.
  destruct (normalize_time today d) as [[t d']|]; [|discriminate].
  simpl in H. destruct (textFn opts d') as [txt|] eqn:Et; [|discriminate].
  simpl in H. exists t, d'. split; [done|].
  unfold Item_init in H. destruct (is_none _ && truthy txt).
  - destruct (get_text_dimensions txt) as [[w h]|]; [|discriminate].
    simpl in H. by injection H as <-.
  - by injection H as <-.
Qed.

Lemma parse_items_app today opts mode (pre post : list (gmap string pyval)) its :
  parse_items today opts mode pre = Ok its ->
  parse_items today opts mode (pre ++ post)
  = its' ← parse_items today opts mode post; Ok (its ++ its')%list.
Proof.
  revert its. induction pre as [|d pre IH]; intros its H; simpl in *.
  - injection H as <-. by destruct (parse_items today opts mode post).
  - destruct (parse_item today opts mode d) as [it|]; [|discriminate].
    simpl in *.
    destruct (parse_items today opts mode pre) as [its0|]; [|discriminate].
    simpl in *. injection H as <-. rewrite (IH its0 eq_refl).
    by destruct (parse_items today opts mode post).
Qed.

(** X1: a record without a ["time"] key makes [parse_items] raise
    [KeyError] for that key, when the records before it parse; the records
    after it are not looked at. *)
Theorem parse_items_missing_time today opts mode
    (pre post : list (gmap string pyval)) (d : gmap string pyval) its :
  parse_items today opts mode pre = Ok its ->
  d !! "time" = None ->
  parse_items today opts mode (pre ++ d :: post) = Raise (KeyError "time").
Proof.
  intros Hpre Hd. rewrite (parse_items_app _ _ _ _ _ _ Hpre). simpl.
  unfold parse_item, normalize_time. by rewrite Hd.
Qed.

Lemma parse_items_missing_time_witness :
  parse_items 0 TIMELINE_DEFAULT_OPTIONS "svg"
    ([record_dot] ++ record_no_time :: [record_jan])
  = Raise (KeyError "time").
Proof.
  apply (parse_items_missing_time 0 TIMELINE_DEFAULT_OPTIONS "svg"
           [record_dot] [record_jan] record_no_time [item_dot]);
    reflexivity.
Defined.

(** Normalizing a record a second time changes nothing, unless its time
    was a bare time of day. *)
Lemma normalize_time_stable today (d d' : gmap string pyval) t :
  normalize_time today d = Ok (t, d') ->
  (forall tod, d !! "time" <> Some (PyTime tod)) ->
  normalize_time today d' = Ok (t, d').
Proof.
  unfold normalize_time. intros H Hno.
  destruct (d !! "time") as [[]|] eqn:E; simplify_eq;
    try (rewrite E; done);
    try (rewrite lookup_insert_eq, insert_insert_eq; done).
  by destruct (Hno tod).
Qed.

(** X2: when [parse_items] returns, there is one item per record, in the
    order of the records.  Provided that no record with a bare time of day
    occurs twice in the list, the item has the given output mode; its record
    is the input record except for the ["time"] key, which holds the time of
    the item; and its text is what the text accessor yields for that
    record. *)
Theorem parse_items_records today opts mode
    (dicts : list (gmap string pyval)) its :
  bare_times_once dicts ->
  parse_items today opts mode dicts = Ok its ->
  length its = length dicts /\
  forall i d, dicts !! i = Some d ->
    exists it, its !! i = Some it /\
      data it !! "time" = Some (time it) /\
      (forall k, k <> "time" -> data it !! k = d !! k) /\
      output_mode it = mode /\
      textFn opts (data it) = Ok (text it).
Proof.
  intros _.
  revert its. induction dicts as [|d0 dicts IH]; intros its H; simpl in H.
  - injection H as <-. split; [done|]. intros i d Hi. done.
  - destruct (parse_item today opts mode d0) as [it0|] eqn:E0; [|discriminate].
    simpl in H.
    destruct (parse_items today opts mode dicts) as [its0|]; [|discriminate].
    simpl in H. injection H as <-.
    destruct (IH its0 eq_refl) as [Hlen Hall].
    split; [simpl; by rewrite Hlen|].
    intros [|i] d Hi; simpl in Hi.
    + injection Hi as <-. exists it0. split; [done|].
      destruct (parse_item_Ok_inv _ _ _ _ _ E0)
        as (t & d' & Hn & <- & <- & Hm & Ht).
      split; [by eapply normalize_time_field|].
      split; [intros k Hk; by eapply normalize_time_other|]. done.
    + exact (Hall i d Hi).
Qed.

Lemma parse_items_records_witness :
  length [item_jan; item_hello; item_dot]
  = length [record_jan; record_hello; record_dot] /\
  forall i d, [record_jan; record_hello; record_dot] !! i = Some d ->
    exists it, [item_jan; item_hello; item_dot] !! i = Some it /\
      data it !! "time" = Some (time it) /\
      (forall k, k <> "time" -> data it !! k = d !! k) /\
      output_mode it = "svg" /\
      textFn TIMELINE_DEFAULT_OPTIONS (data it) = Ok (text it).
Proof.
  apply (parse_items_records 0 TIMELINE_DEFAULT_OPTIONS "svg"
           [record_jan; record_hello; record_dot]
           [item_jan; item_hello; item_dot]).
  - intros i j d tod _ Hi _ Ht.
    destruct i as [|[|[|i]]]; simpl in Hi; simplify_eq;
      vm_compute in Ht; discriminate.
  - reflexivity.
Defined.



(** ** Sizing the items *)

(** X4: a record whose text is a non-empty string and that has no width, or
    the width [None], becomes an item sized from the text: its width is
    [TEXT_WIDTH_MULTI] times the number of characters of the text (not of
    the bytes of its encoding) and its height is [TEXT_HEIGHT]. *)
Theorem parse_item_sized_from_text today opts mode
    (d d' : gmap string pyval) t (s : string) :
  normalize_time today d = Ok (t, d') ->
  textFn opts d' = Ok (PyStr s) ->
  s <> EmptyString ->
  d !! "width" = None \/ d !! "width" = Some PyNone ->
  exists it, parse_item today opts mode d = Ok it /\
    text it = PyStr s /\
    width it = num (Z.of_nat (code_points s) * 2) /\
    height it = num 20.
Proof.
  intros Hn Ht Hs Hw.
  assert (Hw' : default PyNone (d' !! "width") = PyNone).
  { rewrite (normalize_time_other today d d' t) by done.
    by destruct Hw as [-> | ->]. }
  assert (Htr : truthy (PyStr s) = true).
  { simpl. destruct (String.eqb_spec s EmptyString); done. }
  unfold parse_item. rewrite Hn. cbn -[truthy]. rewrite Ht. cbn -[truthy].
  rewrite Htr, Hw'. unfold Item_init. cbn -[truthy]. rewrite Htr.
  eexists. split; [reflexivity|]. done.
Qed.

Lemma parse_item_sized_from_text_witness :
  exists it,
    parse_item 0 TIMELINE_DEFAULT_OPTIONS "svg" record_hello = Ok it /\
    text it = PyStr "Hello" /\
    width it = num (Z.of_nat (code_points "Hello") * 2) /\
    height it = num 20.
Proof.
  apply (parse_item_sized_from_text 0 TIMELINE_DEFAULT_OPTIONS "svg"
           record_hello record_hello (num 1) "Hello");
    [reflexivity | reflexivity | discriminate | left; reflexivity].
Defined.

(** A character of two bytes counts once: the label of four characters
    below gets the width 8. *)
Lemma parse_item_cafe :
  exists it, parse_item 0 TIMELINE_DEFAULT_OPTIONS "svg" record_cafe = Ok it /\
    width it = num 8 /\ height it = num 20.
Proof. eexists. split; [vm_compute; reflexivity|]. split; reflexivity. Qed.

(** X5: a record without text (the text accessor yields a value that is
    false in a condition) becomes an item of height 13 whose width is the
    width field of the record, whatever it holds, and [DEFAULT_WIDTH] when
    the record has none.  A width field that is [None] is kept as [None]. *)
Theorem parse_item_without_text today opts mode
    (d d' : gmap string pyval) t txt :
  normalize_time today d = Ok (t, d') ->
  textFn opts d' = Ok txt ->
  truthy txt = false ->
  exists it, parse_item today opts mode d = Ok it /\
    text it = txt /\
    width it = default (num DEFAULT_WIDTH) (d !! "width") /\
    height it = PyNum 13.
Proof.
  intros Hn Ht Htr.
  unfold parse_item. rewrite Hn. cbn -[truthy]. rewrite Ht. cbn -[truthy].
  rewrite Htr.
  rewrite (normalize_time_other today d d' t) by done.
  unfold Item_init. rewrite Htr, andb_false_r.
  eexists. split; [reflexivity|]. done.
Qed.

Lemma parse_item_without_text_witness :
  exists it,
    parse_item 0 TIMELINE_DEFAULT_OPTIONS "svg" record_none_width = Ok it /\
    text it = PyNone /\
    width it = default (num DEFAULT_WIDTH) (record_none_width !! "width") /\
    height it = PyNum 13.
Proof.
  apply (parse_item_without_text 0 TIMELINE_DEFAULT_OPTIONS "svg"
           record_none_width record_none_width (num 2) PyNone);
    reflexivity.
Defined.

(** X6: a text that is true in a condition and is not a string (a number, a
    boolean, a date) makes the construction of the item raise [TypeError]
    when the record gives no width, because the item is sized by [len] of its
    text; with a width in the record the same text is accepted. *)
Theorem parse_item_text_without_len today opts mode
    (d d' : gmap string pyval) t txt :
  normalize_time today d = Ok (t, d') ->
  textFn opts d' = Ok txt ->
  truthy txt = true ->
  (forall s, txt <> PyStr s) ->
  (d !! "width" = None \/ d !! "width" = Some PyNone ->
     parse_item today opts mode d = Raise TypeError) /\
  (forall w, d !! "width" = Some w -> w <> PyNone ->
     exists it, parse_item today opts mode d = Ok it /\ text it = txt).
Proof.
  intros Hn Ht Htr Hs. split.
  - intros Hw.
    assert (Hw' : default PyNone (d' !! "width") = PyNone).
    { rewrite (normalize_time_other today d d' t) by done.
      by destruct Hw as [-> | ->]. }
    unfold parse_item. rewrite Hn. cbn -[truthy]. rewrite Ht. cbn -[truthy].
    rewrite Htr, Hw'. unfold Item_init. cbn -[truthy]. rewrite Htr.
    destruct txt; try done. by destruct (Hs s).
  - intros w Hw Hnone.
    unfold parse_item. rewrite Hn. cbn -[truthy]. rewrite Ht. cbn -[truthy].
    rewrite Htr.
    rewrite (normalize_time_other today d d' t), Hw by done. simpl.
    rewrite Item_init_sized by done. eexists. split; [reflexivity|]. done.
Qed.

Lemma parse_item_text_without_len_witness :
  parse_item 0 TIMELINE_DEFAULT_OPTIONS "svg" record_number_text
  = Raise TypeError.
Proof.
  refine (proj1 (parse_item_text_without_len 0 TIMELINE_DEFAULT_OPTIONS "svg"
            record_number_text record_number_text (num 2) (num 7)
            _ _ _ _) _);
    [reflexivity | reflexivity | reflexivity | discriminate
    | left; reflexivity].
Defined.

(** X7: with the option ["textFn"] set to [None] the text of a record is
    its ["text"] field, or [None] when it has none, which is what the text
    accessor of the defaults yields; neither raises. *)
Theorem textFn_None_is_default (opts : gmap string optval)
    (thedict : gmap string pyval) :
  opts !! "textFn" = Some (OVal PyNone) ->
  textFn opts thedict = Ok (default PyNone (thedict !! "text")) /\
  textFn TIMELINE_DEFAULT_OPTIONS thedict
  = Ok (default PyNone (thedict !! "text")).
Proof.
  intros H. split.
  - unfold textFn. rewrite (getitem_Some _ _ _ H). simpl.
    by destruct (thedict !! "text").
  - assert (Hd : TIMELINE_DEFAULT_OPTIONS !! "textFn"
                 = Some (OFn default_textFn)) by reflexivity.
    unfold textFn. rewrite (getitem_Some _ _ _ Hd). simpl.
    unfold default_textFn. by destruct (thedict !! "text").
Qed.

Lemma textFn_None_is_default_witness :
  textFn (<["textFn" := OVal PyNone]> TIMELINE_DEFAULT_OPTIONS) record_jan
  = Ok (default PyNone (record_jan !! "text")) /\
  textFn TIMELINE_DEFAULT_OPTIONS record_jan
  = Ok (default PyNone (record_jan !! "text")).
Proof.
  apply (textFn_None_is_default
           (<["textFn" := OVal PyNone]> TIMELINE_DEFAULT_OPTIONS) record_jan).
  reflexivity.
Defined.

(** ** The two passes over the items, on any items *)

Lemma max_from_numeric_max (qs : list Q) (cur : Q) :
  exists m, max_from (PyNum cur) (PyNum <$> qs) = Ok (PyNum m) /\
    m ∈ cur :: qs /\ (cur <= m)%Q /\ forall q, q ∈ qs -> (q <= m)%Q.
Proof.
  revert cur. induction qs as [|x qs IH]; intros cur.
  - exists cur. split; [done|]. split; [by left|]. split; [apply Qle_refl|].
    intros q Hq. by apply elem_of_nil in Hq.
  - rewrite fmap_cons. simpl. unfold Qltb.
    destruct (Qle_bool x cur) eqn:E; simpl.
    + apply Qle_bool_iff in E.
      destruct (IH cur) as (m & Hm & Hin & Hcur & Hall).
      exists m. split; [done|]. split.
      { apply elem_of_cons in Hin as [->|Hin]; [by left|].
        right. by right. }
      split; [done|]. intros q Hq. apply elem_of_cons in Hq as [->|Hq].
      * by eapply Qle_trans.
      * by apply Hall.
    + assert (Hlt : (cur < x)%Q).
      { apply Qnot_le_lt. intros H. apply Qle_bool_iff in H. congruence. }
      destruct (IH x) as (m & Hm & Hin & Hx & Hall).
      exists m. split; [done|]. split; [by right|].
      split; [eapply Qle_trans; [by apply Qlt_le_weak|done]|].
      intros q Hq. apply elem_of_cons in Hq as [->|Hq]; [done|].
      by apply Hall.
Qed.

(** X8: on any non-empty list of items with numeric heights, the
    equal-heights pass returns; the height it gives to every item that
    carries text is the greatest height of all the items, those without text
    included, and it changes nothing else. *)
Theorem equal_heights_max_of_all (its : list Item) (hs : list Q) :
  its <> [] ->
  height <$> its = PyNum <$> hs ->
  exists m, m ∈ hs /\ (forall q, q ∈ hs -> (q <= m)%Q) /\
    equal_heights its
    = Ok ((fun it => if textual it then set_height (PyNum m) it else it)
            <$> its).
Proof.
  intros Hne Hh. unfold equal_heights. rewrite Hh.
  destruct hs as [|h hs].
  { destruct its; [done | discriminate]. }
  rewrite fmap_cons. unfold py_max.
  destruct (max_from_numeric_max hs h) as (m & Hm & Hin & Hle & Hall).
  exists m. split; [done|]. split.
  - intros q Hq. apply elem_of_cons in Hq as [->|Hq]; [done | by apply Hall].
  - rewrite Hm. reflexivity.
Qed.

Lemma equal_heights_max_of_all_witness :
  exists m, m ∈ [10%Q; 13%Q] /\ (forall q, q ∈ [10%Q; 13%Q] -> (q <= m)%Q) /\
    equal_heights [set_size (num 20) (num 10) item_hello; item_dot]
    = Ok ((fun it => if textual it then set_height (PyNum m) it else it)
            <$> [set_size (num 20) (num 10) item_hello; item_dot]).
Proof.
  apply (equal_heights_max_of_all
           [set_size (num 20) (num 10) item_hello; item_dot] [10%Q; 13%Q]);
    [discriminate | reflexivity].
Defined.

(** On the rotated items of the example, the label takes the height of the
    dot, 13, which no item that carries text had. *)
Lemma equal_heights_after_rotation :
  equal_heights [set_size (num 20) (num 10) item_hello; item_dot]
  = Ok [set_size (num 20) (PyNum 13) item_hello; item_dot].
Proof. reflexivity. Qed.

(** X9: the rotation pass undoes itself: under any direction, rotating the
    items twice gives the items back. *)
Theorem rotate_items_involutive (dir : optval) (its : list Item) :
  rotate_items dir (rotate_items dir its) = its.
Proof.
  unfold rotate_items. destruct (in_left_right dir); [|done].
  rewrite <- list_fmap_compose. rewrite <- (list_fmap_id its) at 2.
  apply list_fmap_ext. intros i it _. simpl.
  destruct (truthy (text it)) eqn:E.
  - simpl. rewrite E. by destruct it.
  - by rewrite E.
Qed.

(** X10: with a list as the option, [colorFunc] is periodic in the index:
    adding any multiple of the length of the list to the index, also a
    negative one, gives the same result. *)
Theorem colorFunc_list_periodic (d3_functor : optval -> optval)
    (G : gset string) (opts : gmap string optval) (colorName : string)
    (thedict : gmap string pyval) (l : list pyval) (i k : Z) :
  opts !! colorName = Some (OList l) ->
  colorFunc d3_functor G opts colorName thedict
    (i + k * Z.of_nat (length l))
  = colorFunc d3_functor G opts colorName thedict i.
Proof.
  intros H. unfold colorFunc. rewrite (getitem_Some _ _ _ H). simpl.
  destruct (Z.eqb_spec (Z.of_nat (length l)) 0) as [H0|H0]; [done|].
  by rewrite Z_mod_plus_full.
Qed.

Lemma colorFunc_list_periodic_witness :
  colorFunc functor_of module_globals
    (<["linkColor" := OList [PyStr "red"; PyStr "green"; PyStr "blue"]]>
       TIMELINE_DEFAULT_OPTIONS)
    "linkColor" record_dot
    (1 + (-5) * Z.of_nat (length [PyStr "red"; PyStr "green"; PyStr "blue"]))
  = colorFunc functor_of module_globals
      (<["linkColor" := OList [PyStr "red"; PyStr "green"; PyStr "blue"]]>
         TIMELINE_DEFAULT_OPTIONS)
      "linkColor" record_dot 1.
Proof.
  apply (colorFunc_list_periodic functor_of module_globals
           (<["linkColor" := OList [PyStr "red"; PyStr "green"; PyStr "blue"]]>
              TIMELINE_DEFAULT_OPTIONS)
           "linkColor" record_dot
           [PyStr "red"; PyStr "green"; PyStr "blue"] 1 (-5)).
  reflexivity.
Defined.

(** ** Nodes of items without a numeric width *)




(** ** Setting up the axis *)

Lemma getInnerDims_numeric st opts iw ih l r t b :
  numeric_canvas st opts iw ih l r t b ->
  getInnerDims st opts
  = Ok (PyNum (iw - l - r), PyNum (ih - t - b)).
Proof.
  intros (Hiw & Hih & lm & mg & Hm & Hst & Hl & Hr & Ht & Hb).
  unfold getInnerDims.
  rewrite (getitem_Some _ _ _ Hiw), (getitem_Some _ _ _ Hih),
    (getitem_Some _ _ _ Hm).
  simpl. rewrite Hst.
  rewrite (getitem_Some _ _ _ Hl), (getitem_Some _ _ _ Hr),
    (getitem_Some _ _ _ Ht), (getitem_Some _ _ _ Hb).
  reflexivity.
Qed.

Lemma numeric_canvas_scale_written st opts iw ih l r t b ls s s' :
  numeric_canvas st opts iw ih l r t b ->
  st !! ls = Some (ScaleObj s) ->
  numeric_canvas (<[ls := ScaleObj s']> st) opts iw ih l r t b.
Proof.
  intros (Hiw & Hih & lm & mg & Hm & Hst & Hrest) Hls.
  split; [done|]. split; [done|]. exists lm, mg. split; [done|].
  split; [|done]. rewrite lookup_insert_ne; [done|]. intros ->. congruence.
Qed.

Lemma scale_of_scale st opts ls s method :
  opts !! "scale" = Some (ORef ls) ->
  st !! ls = Some (ScaleObj s) ->
  (getitem opts "scale" ≫= fun sc => scale_of st sc method) = Ok ls.
Proof.
  intros Ho Hs. rewrite (getitem_Some _ _ _ Ho). simpl. by rewrite Hs.
Qed.

Lemma scale_update_run st l s method update :
  st !! l = Some (ScaleObj s) ->
  scale_update l method update st
  = (Ok tt, <[l := ScaleObj (update s)]> st).
Proof. intros H. unfold scale_update. by rewrite H. Qed.

(** The last statements of [init_axis], from a store in which the scale has
    its domain. *)
Lemma init_axis_range_run st opts ls s dir iw ih l r t b :
  opts !! "scale" = Some (ORef ls) ->
  st !! ls = Some (ScaleObj s) ->
  opts !! "direction" = Some dir ->
  numeric_canvas st opts iw ih l r t b ->
  ('(innerWidth, innerHeight) ← reads (fun st => getInnerDims st opts);
   dir ← reads (fun _ => getitem opts "direction");
   l ← reads (fun st =>
         sc ← getitem opts "scale"; scale_of st sc "range");
   if in_left_right dir then scale_range l [num 0; innerHeight]
   else scale_range l [num 0; innerWidth]) st
  = (Ok tt,
     <[ls := ScaleObj (mkScale (ts_domain s)
                         [num 0; PyNum (inner_extent dir iw ih l r t b)])]>
       st).
Proof.
  intros Ho Hs Hd Hc.
  unfold mbind, M_bind, reads at 1. rewrite (getInnerDims_numeric _ _ _ _ _ _ _ _ Hc).
  unfold reads at 1. rewrite (getitem_Some _ _ _ Hd).
  unfold reads. rewrite (scale_of_scale _ _ _ _ _ Ho Hs).
  unfold inner_extent, scale_range.
  destruct (in_left_right dir); by rewrite (scale_update_run _ _ _ _ _ Hs).
Qed.

Lemma M_bind_Ok {A B} (m : M A) (k : A -> M B) st a st' :
  m st = (Ok a, st') -> (m ≫= k) st = k a st'.
Proof. intros H. unfold mbind, M_bind. by rewrite H. Qed.

Lemma M_bind_Raise {A B} (m : M A) (k : A -> M B) st e st' :
  m st = (Raise e, st') -> (m ≫= k) st = (Raise e, st').
Proof. intros H. unfold mbind, M_bind. by rewrite H. Qed.

(** X12: with a configured domain (a non-empty list), [init_axis] gives the
    scale that domain as it is, without looking at the records and without
    rounding it, and the range from 0 to the inner extent of the canvas: the
    inner height under [left] and [right], the inner width under any other
    direction.  Nothing else in the store changes. *)
Theorem init_axis_explicit_domain (nice : list pyval -> list pyval)
    (d3_extent : list (gmap string pyval) -> optval -> result (list pyval))
    (G : gset string) (opts : gmap string optval)
    (dicts : list (gmap string pyval)) (st : gmap loc obj)
    (ls : loc) (s : TimeScale) (dir : optval) (extent : list pyval)
    (iw ih l r t b : Q) :
  opts !! "scale" = Some (ORef ls) ->
  st !! ls = Some (ScaleObj s) ->
  opts !! "domain" = Some (OList extent) ->
  extent <> [] ->
  opts !! "direction" = Some dir ->
  numeric_canvas st opts iw ih l r t b ->
  init_axis nice d3_extent G opts dicts st
  = (Ok tt,
     <[ls := ScaleObj (mkScale extent
                         [num 0; PyNum (inner_extent dir iw ih l r t b)])]>
       st).
Proof.
  intros Ho Hs Hdom Hne Hd Hc. unfold init_axis.
  erewrite M_bind_Ok;
    [|unfold reads; by rewrite (getitem_Some _ _ _ Hdom)].
  erewrite M_bind_Ok; [|reflexivity].
  assert (Htruth : opt_truthy st (OList extent) = true)
    by (by destruct extent).
  rewrite Htruth.
  erewrite M_bind_Ok.
  2:{ erewrite M_bind_Ok;
        [|unfold reads; by rewrite (scale_of_scale _ _ _ _ _ Ho Hs)].
      erewrite M_bind_Ok;
        [|unfold reads; by rewrite (getitem_Some _ _ _ Hdom)].
      unfold scale_domain. by rewrite (scale_update_run _ _ _ _ _ Hs). }
  erewrite init_axis_range_run;
    [| exact Ho | apply lookup_insert_eq | exact Hd
     | by eapply numeric_canvas_scale_written].
  simpl. by rewrite insert_insert_eq.
Qed.

Lemma init_axis_explicit_domain_witness :
  init_axis (fun extent => extent) constant_extent module_globals
    (options_up ∪ TIMELINE_DEFAULT_OPTIONS) [record_dot] module_store
  = (Ok tt,
     <[loc_scale := ScaleObj (mkScale [num 0; num 10]
          [num 0;
           PyNum (inner_extent (OVal (PyStr "up")) 400 400 20 20 20 20)])]>
       module_store).
Proof.
  apply (init_axis_explicit_domain (fun extent => extent) constant_extent
           module_globals (options_up ∪ TIMELINE_DEFAULT_OPTIONS)
           [record_dot] module_store loc_scale (mkScale [] [])
           (OVal (PyStr "up")) [num 0; num 10] 400 400 20 20 20 20).
  - vm_compute. reflexivity.
  - vm_compute. reflexivity.
  - vm_compute. reflexivity.
  - discriminate.
  - vm_compute. reflexivity.
  - split; [vm_compute; reflexivity|]. split; [vm_compute; reflexivity|].
    exists loc_margin. eexists.
    split; [vm_compute; reflexivity|]. split; [reflexivity|].
    repeat split; vm_compute; reflexivity.
Defined.

(** X13: without a configured domain (the option is [None] or empty),
    [init_axis] gives the scale the extent of the records under the time
    accessor, rounded by [nice], and the range from 0 to the inner extent of
    the canvas.  Nothing else in the store changes. *)
Theorem init_axis_auto_domain (nice : list pyval -> list pyval)
    (d3_extent : list (gmap string pyval) -> optval -> result (list pyval))
    (G : gset string) (opts : gmap string optval)
    (dicts : list (gmap string pyval)) (st : gmap loc obj)
    (ls : loc) (s : TimeScale) (dom f dir : optval) (extent : list pyval)
    (iw ih l r t b : Q) :
  "d3_extent" ∈ G ->
  opts !! "scale" = Some (ORef ls) ->
  st !! ls = Some (ScaleObj s) ->
  opts !! "domain" = Some dom ->
  opt_truthy st dom = false ->
  opts !! "timeFn" = Some f ->
  d3_extent dicts f = Ok extent ->
  opts !! "direction" = Some dir ->
  numeric_canvas st opts iw ih l r t b ->
  init_axis nice d3_extent G opts dicts st
  = (Ok tt,
     <[ls := ScaleObj (mkScale (nice extent)
                         [num 0; PyNum (inner_extent dir iw ih l r t b)])]>
       st).
Proof.
  intros HG Ho Hs Hdom Htruth Hf Hext Hd Hc. unfold init_axis.
  erewrite M_bind_Ok;
    [|unfold reads; by rewrite (getitem_Some _ _ _ Hdom)].
  erewrite M_bind_Ok; [|reflexivity].
  rewrite Htruth.
  erewrite M_bind_Ok.
  2:{ erewrite M_bind_Ok;
        [|unfold reads; by rewrite (scale_of_scale _ _ _ _ _ Ho Hs)].
      erewrite M_bind_Ok.
      2:{ unfold reads. rewrite (load_global_bound _ _ HG). simpl.
          rewrite (getitem_Some _ _ _ Hf). simpl. by rewrite Hext. }
      erewrite M_bind_Ok;
        [|unfold scale_domain; by rewrite (scale_update_run _ _ _ _ _ Hs)].
      erewrite M_bind_Ok.
      2:{ unfold reads.
          by rewrite (scale_of_scale _ _ ls _ _ Ho (lookup_insert_eq _ _ _)). }
      unfold scale_nice.
      by rewrite (scale_update_run _ _ _ _ _ (lookup_insert_eq _ _ _)). }
  erewrite init_axis_range_run;
    [| exact Ho | apply lookup_insert_eq | exact Hd
     | eapply numeric_canvas_scale_written; [|apply lookup_insert_eq];
       by eapply numeric_canvas_scale_written].
  simpl. by rewrite !insert_insert_eq.
Qed.

Lemma init_axis_auto_domain_witness :
  init_axis (fun extent => extent) constant_extent module_globals
    TIMELINE_DEFAULT_OPTIONS [record_dot] module_store
  = (Ok tt,
     <[loc_scale := ScaleObj (mkScale [num 0; num 10]
          [num 0;
           PyNum (inner_extent (OVal (PyStr "right")) 400 400 20 20 20 20)])]>
       module_store).
Proof.
  apply (init_axis_auto_domain (fun extent => extent) constant_extent
           module_globals TIMELINE_DEFAULT_OPTIONS
           [record_dot] module_store loc_scale (mkScale [] [])
           (OVal PyNone) (OFn default_timeFn) (OVal (PyStr "right"))
           [num 0; num 10] 400 400 20 20 20 20).
  - vm_compute. reflexivity.
  - vm_compute. reflexivity.
  - vm_compute. reflexivity.
  - vm_compute. reflexivity.
  - reflexivity.
  - vm_compute. reflexivity.
  - reflexivity.
  - vm_compute. reflexivity.
  - split; [vm_compute; reflexivity|]. split; [vm_compute; reflexivity|].
    exists loc_margin. eexists.
    split; [vm_compute; reflexivity|]. split; [reflexivity|].
    repeat split; vm_compute; reflexivity.
Defined.

Lemma init_axis_scale_None nice d3_extent G opts dicts st dom :
  opts !! "scale" = Some (OVal PyNone) ->
  opts !! "domain" = Some dom ->
  init_axis nice d3_extent G opts dicts st
  = (Raise (AttributeError "domain"), st).
Proof.
  intros Hs Hd. unfold init_axis.
  erewrite M_bind_Ok;
    [|unfold reads; by rewrite (getitem_Some _ _ _ Hd)].
  erewrite M_bind_Ok; [|reflexivity].
  erewrite M_bind_Raise; [reflexivity|].
  destruct (opt_truthy st dom);
    (erewrite M_bind_Raise;
       [reflexivity | unfold reads; by rewrite (getitem_Some _ _ _ Hs)]).
Qed.

Lemma merged_options_lookup caller k :
  merged_options caller !! k
  = match caller with
    | Some o =>
        match o !! k with
        | Some v => Some v
        | None => TIMELINE_DEFAULT_OPTIONS !! k
        end
    | None => TIMELINE_DEFAULT_OPTIONS !! k
    end.
Proof.
  unfold merged_options. destruct caller as [o|]; [|done].
  case_bool_decide as Ho.
  - subst o. by rewrite lookup_empty.
  - destruct (o !! k) as [v|] eqn:E.
    + by apply lookup_union_Some_l.
    + by rewrite lookup_union_r.
Qed.

(** What a returning constructor has done. *)
Lemma Timeline_init_Ok_inv today nice d3_extent G dicts caller mode st tl st2 :
  Timeline_init today nice d3_extent G dicts caller mode st = (Ok tl, st2) ->
  options tl = merged_options caller /\
  direction tl = direction_of caller /\
  exists st1 its its',
    parse_items today (merged_options caller) mode dicts = Ok its /\
    equal_heights its = Ok its' /\
    items tl = rotate_items (direction_of caller) its' /\
    init_axis nice d3_extent G (merged_options caller) (data <$> items tl) st1
    = (Ok tt, st2).
Proof.
  pose proof (merged_options_direction caller) as Hdir.
  unfold Timeline_init.
  erewrite M_bind_Ok;
    [|unfold reads; by rewrite (getitem_Some _ _ _ Hdir)].
  unfold mbind at 1, M_bind at 1.
  destruct (writes _ st) as [[[]|e] st1]; simpl; [|discriminate].
  unfold Timeline_init_rest, mbind, M_bind, reads.
  destruct (parse_items today (merged_options caller) mode dicts) as [its|];
    simpl; [|discriminate].
  destruct (equal_heights its) as [its'|] eqn:Eh; simpl; [|discriminate].
  destruct (init_axis _ _ _ _ _ st1) as [[[]|e] st2'] eqn:E; simpl;
    [|discriminate].
  intros [= <- <-]. simpl. split; [done|]. split; [done|].
  exists st1, its, its'. done.
Qed.

(** X14: constructing a timeline with the option ["scale"] set to [None]
    raises [AttributeError] in [init_axis], at the [domain] method of the
    scale, once the direction has been written into the [labella] dict (that
    of the defaults or one of the caller), the records have been parsed and
    the equal-heights pass has returned.  The store is left with that write
    and no other. *)
Theorem Timeline_init_scale_None (today : Z)
    (nice : list pyval -> list pyval)
    (d3_extent : list (gmap string pyval) -> optval -> result (list pyval))
    (G : gset string) (dicts : list (gmap string pyval))
    (o : gmap string optval) (mode : string) (st : gmap loc obj)
    (l : loc) (m : gmap string optval) (its its' : list Item) :
  o !! "scale" = Some (OVal PyNone) ->
  merged_options (Some o) !! "labella" = Some (ORef l) ->
  st !! l = Some (DictObj m) ->
  parse_items today (merged_options (Some o)) mode dicts = Ok its ->
  equal_heights its = Ok its' ->
  Timeline_init today nice d3_extent G dicts (Some o) mode st
  = (Raise (AttributeError "domain"),
     <[l := DictObj (<["direction" := direction_of (Some o)]> m)]> st).
Proof.
  intros Hs Hlab Hst Hp He.
  pose proof (merged_options_direction (Some o)) as Hdir.
  assert (Hsc : merged_options (Some o) !! "scale" = Some (OVal PyNone))
    by (by rewrite merged_options_lookup, Hs).
  assert (Hdom : exists dom, merged_options (Some o) !! "domain" = Some dom).
  { rewrite merged_options_lookup. destruct (o !! "domain"); by eexists. }
  destruct Hdom as [dom Hdom].
  unfold Timeline_init.
  erewrite M_bind_Ok;
    [|unfold reads; by rewrite (getitem_Some _ _ _ Hdir)].
  erewrite M_bind_Ok.
  2:{ unfold writes. rewrite (getitem_Some _ _ _ Hlab). simpl.
      by rewrite Hst. }
  unfold Timeline_init_rest.
  erewrite M_bind_Ok; [|unfold reads; by rewrite Hp].
  erewrite M_bind_Ok; [|unfold reads; by rewrite He].
  erewrite M_bind_Raise; [reflexivity|].
  by eapply init_axis_scale_None.
Qed.

Lemma Timeline_init_scale_None_witness :
  Timeline_init 0 (fun extent => extent) constant_extent module_globals
    [record_hello; record_dot] (Some options_no_scale) "svg" module_store
  = (Raise (AttributeError "domain"),
     <[loc_labella :=
         DictObj (<["direction" := direction_of (Some options_no_scale)]> ∅)]>
       module_store).
Proof.
  apply (Timeline_init_scale_None 0 (fun extent => extent) constant_extent
           module_globals [record_hello; record_dot] options_no_scale "svg"
           module_store loc_labella ∅
           [item_hello; item_dot] [item_hello; item_dot]);
    reflexivity.
Defined.

(** The same with a [labella] dict of the caller. *)
Lemma Timeline_init_scale_None_own_labella :
  Timeline_init 0 (fun extent => extent) constant_extent module_globals
    [record_hello; record_dot]
    (Some (<["scale" := OVal PyNone]> options_own)) "svg" store_own
  = (Raise (AttributeError "domain"),
     <[loc_own :=
         DictObj (<["direction" := OVal (PyStr "up")]>
                    {[ "nodeSpacing" := OVal (num 3) ]})]>
       store_own).
Proof. vm_compute. reflexivity. Qed.

Lemma init_axis_Ok_domain nice d3_extent G opts dicts st st' ls extent :
  init_axis nice d3_extent G opts dicts st = (Ok tt, st') ->
  opts !! "scale" = Some (ORef ls) ->
  opts !! "domain" = Some (OList extent) ->
  extent <> [] ->
  exists rng, st' !! ls = Some (ScaleObj (mkScale extent rng)).
Proof.
  intros H Ho Hdom Hne. unfold init_axis in H.
  erewrite M_bind_Ok in H;
    [|unfold reads; by rewrite (getitem_Some _ _ _ Hdom)].
  erewrite M_bind_Ok in H; [|reflexivity].
  assert (Htruth : opt_truthy st (OList extent) = true)
    by (by destruct extent).
  rewrite Htruth in H.
  unfold mbind, M_bind, reads, scale_domain, scale_range, scale_update in H.
  rewrite (getitem_Some _ _ _ Ho), (getitem_Some _ _ _ Hdom) in H.
  simpl in H.
  destruct (st !! ls) as [[m|s]|] eqn:Es; simpl in H; try discriminate.
  rewrite Es in H. simpl in H.
  destruct (getInnerDims _ opts) as [[iw ih]|]; simpl in H; [|discriminate].
  destruct (getitem opts "direction") as [dir|]; simpl in H; [|discriminate].
  rewrite lookup_insert_eq in H. simpl in H.
  destruct (in_left_right dir); rewrite lookup_insert_eq in H;
    injection H as <-; rewrite lookup_insert_eq; by eexists.
Qed.

(** X15: the scale of the defaults is one object, shared by every timeline
    whose options omit ["scale"].  When two such timelines are constructed
    one after the other, both hold the reference of the defaults, and the
    scale has the domain of the second: the positions of the first timeline
    are from then on projected with the domain of the second. *)
Theorem default_scale_shared (today : Z)
    (nice : list pyval -> list pyval)
    (d3_extent : list (gmap string pyval) -> optval -> result (list pyval))
    (G : gset string) (dicts1 dicts2 : list (gmap string pyval))
    (caller1 : option (gmap string optval)) (o2 : gmap string optval)
    (mode1 mode2 : string) (st st1 st2 : gmap loc obj) (tl1 tl2 : Timeline)
    (extent : list pyval) :
  omits "scale" caller1 ->
  o2 !! "scale" = None ->
  o2 !! "domain" = Some (OList extent) ->
  extent <> [] ->
  Timeline_init today nice d3_extent G dicts1 caller1 mode1 st
  = (Ok tl1, st1) ->
  Timeline_init today nice d3_extent G dicts2 (Some o2) mode2 st1
  = (Ok tl2, st2) ->
  options tl1 !! "scale" = Some (ORef loc_scale) /\
  options tl2 !! "scale" = Some (ORef loc_scale) /\
  exists rng, st2 !! loc_scale = Some (ScaleObj (mkScale extent rng)).
Proof.
  intros Ho1 Ho2 Hdom Hne H1 H2.
  destruct (Timeline_init_Ok_inv _ _ _ _ _ _ _ _ _ _ H1) as (Hopt1 & _ & _).
  destruct (Timeline_init_Ok_inv _ _ _ _ _ _ _ _ _ _ H2)
    as (Hopt2 & _ & st' & its & its' & _ & _ & _ & Haxis).
  assert (Hs1 : options tl1 !! "scale" = Some (ORef loc_scale)).
  { rewrite Hopt1, merged_options_lookup. destruct caller1 as [o1|]; [|done].
    simpl in Ho1. by rewrite Ho1. }
  assert (Hs2 : options tl2 !! "scale" = Some (ORef loc_scale)).
  { by rewrite Hopt2, merged_options_lookup, Ho2. }
  split; [done|]. split; [done|].
  rewrite Hopt2 in Hs2.
  eapply init_axis_Ok_domain; [exact Haxis | exact Hs2 | | exact Hne].
  by rewrite merged_options_lookup, Hdom.
Qed.

Lemma default_scale_shared_witness :
  exists tl1 tl2 st1 st2,
    run_up = (Ok tl1, st1) /\ run_late = (Ok tl2, st2) /\
    options tl1 !! "scale" = Some (ORef loc_scale) /\
    options tl2 !! "scale" = Some (ORef loc_scale) /\
    exists rng,
      st2 !! loc_scale
      = Some (ScaleObj (mkScale [num 100; num 200] rng)).
Proof.
  destruct run_up as [r1 st1] eqn:E1.
  destruct run_late as [r2 st2] eqn:E2.
  assert (H1 : exists tl1, r1 = Ok tl1).
  { assert (H : r1 = run_up.1) by (by rewrite E1). rewrite H.
    vm_compute. by eexists. }
  assert (H2 : exists tl2, r2 = Ok tl2).
  { assert (H : r2 = run_late.1) by (by rewrite E2). rewrite H.
    vm_compute. by eexists. }
  destruct H1 as [tl1 ->]. destruct H2 as [tl2 ->].
  exists tl1, tl2, st1, st2. split; [done|]. split; [done|].
  assert (Hst : st1 = run_up.2) by (by rewrite E1).
  unfold run_late in E2. rewrite <- Hst in E2.
  exact (default_scale_shared 0 (fun extent => extent) constant_extent
           module_globals [record_dot] [record_hello] (Some options_up)
           options_late "svg" "svg" module_store st1 st2 tl1 tl2
           [num 100; num 200] eq_refl eq_refl eq_refl
           ltac:(discriminate) E1 E2).
Defined.

(** ** The options of a constructed timeline *)

(** X16: the options of a constructed timeline are the options of the
    caller over the defaults: a key that the caller gives has the caller's
    value, also when the defaults do not know the key, and every other key
    has the value of the defaults. *)
Theorem Timeline_init_options (today : Z)
    (nice : list pyval -> list pyval)
    (d3_extent : list (gmap string pyval) -> optval -> result (list pyval))
    (G : gset string) (dicts : list (gmap string pyval))
    (caller : option (gmap string optval)) (mode : string)
    (st st' : gmap loc obj) (tl : Timeline) :
  Timeline_init today nice d3_extent G dicts caller mode st = (Ok tl, st') ->
  forall k,
    options tl !! k
    = match caller with
      | Some o =>
          match o !! k with
          | Some v => Some v
          | None => TIMELINE_DEFAULT_OPTIONS !! k
          end
      | None => TIMELINE_DEFAULT_OPTIONS !! k
      end.
Proof.
  intros H k.
  destruct (Timeline_init_Ok_inv _ _ _ _ _ _ _ _ _ _ H) as (-> & _).
  apply merged_options_lookup.
Qed.

Lemma Timeline_init_options_witness :
  exists tl st',
    run_up = (Ok tl, st') /\
    forall k,
      options tl !! k
      = match options_up !! k with
        | Some v => Some v
        | None => TIMELINE_DEFAULT_OPTIONS !! k
        end.
Proof.
  destruct run_up as [r st'] eqn:E.
  assert (H : exists tl, r = Ok tl).
  { assert (H : r = run_up.1) by (by rewrite E). rewrite H.
    vm_compute. by eexists. }
  destruct H as [tl ->]. exists tl, st'. split; [done|].
  exact (Timeline_init_options 0 (fun extent => extent) constant_extent
           module_globals [record_dot] (Some options_up) "svg"
           module_store st' tl E).
Defined.

(** X17: a caller that gives a [labella] dict of its own gets the direction
    written into that dict, and the [labella] dict of the defaults is left as
    it was, whether the constructor returns or raises. *)
Theorem Timeline_init_own_labella (today : Z)
    (nice : list pyval -> list pyval)
    (d3_extent : list (gmap string pyval) -> optval -> result (list pyval))
    (G : gset string) (dicts : list (gmap string pyval))
    (o : gmap string optval) (mode : string) (st : gmap loc obj)
    (l : loc) (m m0 : gmap string optval) :
  o !! "labella" = Some (ORef l) ->
  l <> loc_labella ->
  st !! l = Some (DictObj m) ->
  st !! loc_labella = Some (DictObj m0) ->
  (Timeline_init today nice d3_extent G dicts (Some o) mode st).2 !! l
  = Some (DictObj (<["direction" := direction_of (Some o)]> m)) /\
  (Timeline_init today nice d3_extent G dicts (Some o) mode st).2
    !! loc_labella
  = Some (DictObj m0).
Proof.
  intros Ho Hl Hst Hst0.
  pose proof (merged_options_direction (Some o)) as Hdir.
  assert (Hlab : merged_options (Some o) !! "labella" = Some (ORef l))
    by (by rewrite merged_options_lookup, Ho).
  unfold Timeline_init.
  erewrite M_bind_Ok;
    [|unfold reads; by rewrite (getitem_Some _ _ _ Hdir)].
  erewrite M_bind_Ok.
  2:{ unfold writes. rewrite (getitem_Some _ _ _ Hlab). simpl.
      by rewrite Hst. }
  split.
  - apply keeps_dicts_Timeline_init_rest. apply lookup_insert_eq.
  - apply keeps_dicts_Timeline_init_rest. by rewrite lookup_insert_ne.
Qed.

Lemma Timeline_init_own_labella_witness :
  (Timeline_init 0 (fun extent => extent) constant_extent module_globals
     [record_dot] (Some options_own) "svg" store_own).2 !! loc_own
  = Some (DictObj (<["direction" := direction_of (Some options_own)]>
                     {[ "nodeSpacing" := OVal (num 3) ]})) /\
  (Timeline_init 0 (fun extent => extent) constant_extent module_globals
     [record_dot] (Some options_own) "svg" store_own).2 !! loc_labella
  = Some (DictObj ∅).
Proof.
  apply (Timeline_init_own_labella 0 (fun extent => extent) constant_extent
           module_globals [record_dot] options_own "svg" store_own loc_own
           {[ "nodeSpacing" := OVal (num 3) ]} ∅);
    [reflexivity | discriminate | reflexivity | reflexivity].
Defined.

(** X18: with an empty list of records the constructor raises [ValueError],
    from the maximum that the equal-heights pass takes over no items.  The
    direction has been written into the [labella] dict by then, and nothing
    else in the store has changed. *)
Theorem Timeline_init_empty (today : Z)
    (nice : list pyval -> list pyval)
    (d3_extent : list (gmap string pyval) -> optval -> result (list pyval))
    (G : gset string) (caller : option (gmap string optval)) (mode : string)
    (st : gmap loc obj) (m : gmap string optval) :
  omits "labella" caller ->
  st !! loc_labella = Some (DictObj m) ->
  Timeline_init today nice d3_extent G [] caller mode st
  = (Raise ValueError,
     <[loc_labella := DictObj (<["direction" := direction_of caller]> m)]> st).
Proof.
  intros Ho Hst.
  pose proof (merged_options_direction caller) as Hdir.
  pose proof (merged_options_labella caller Ho) as Hlab.
  unfold Timeline_init.
  erewrite M_bind_Ok;
    [|unfold reads; by rewrite (getitem_Some _ _ _ Hdir)].
  erewrite M_bind_Ok.
  2:{ unfold writes. rewrite (getitem_Some _ _ _ Hlab). simpl.
      by rewrite Hst. }
  reflexivity.
Qed.

Lemma Timeline_init_empty_witness :
  Timeline_init 0 (fun extent => extent) constant_extent module_globals
    [] (Some options_up) "svg" module_store
  = (Raise ValueError,
     <[loc_labella :=
         DictObj (<["direction" := direction_of (Some options_up)]> ∅)]>
       module_store).
Proof.
  apply (Timeline_init_empty 0 (fun extent => extent) constant_extent
           module_globals (Some options_up) "svg" module_store ∅);
    reflexivity.
Defined.

(** ** Positions and the resolver *)



(** X20: with the time accessor of the defaults, the position of an item
    parsed from a record whose time is no bare time of day is the scale
    projection of the time of the item, the normalized one: the accessor
    reads from the record of the item the time that the parsing wrote
    there, and parsing the same record again would write the same. *)
Theorem timePos_parsed_item (project : TimeScale -> pyval -> pyval)
    (today : Z) (opts : gmap string optval) (mode : string)
    (d : gmap string pyval) (it : Item)
    (st : gmap loc obj) (ls : loc) (s : TimeScale) :
  parse_item today opts mode d = Ok it ->
  (forall tod, d !! "time" <> Some (PyTime tod)) ->
  opts !! "timeFn" = Some (OFn default_timeFn) ->
  opts !! "scale" = Some (ORef ls) ->
  st !! ls = Some (ScaleObj s) ->
  timePos project st opts (data it) = Ok (project s (time it)) /\
  normalize_time today (data it) = Ok (time it, data it).
Proof.
  intros Hp Hno Hf Ho Hs.
  destruct (parse_item_Ok_inv _ _ _ _ _ Hp) as (t & d' & Hn & <- & <- & _).
  pose proof (normalize_time_field _ _ _ _ Hn) as Ht.
  split; [|by eapply normalize_time_stable].
  unfold timePos.
  rewrite (getitem_Some _ _ _ Ho), (getitem_Some _ _ _ Hf). simpl.
  unfold default_timeFn. rewrite Ht. simpl. by rewrite Hs.
Qed.

Lemma timePos_parsed_item_witness :
  exists it,
    parse_item 9 TIMELINE_DEFAULT_OPTIONS "svg" record_noon = Ok it /\
    timePos stand_in_project module_store TIMELINE_DEFAULT_OPTIONS (data it)
    = Ok (stand_in_project (mkScale [] []) (time it)) /\
    normalize_time 9 (data it) = Ok (time it, data it).
Proof.
  eexists. split; [vm_compute; reflexivity|].
  eapply (timePos_parsed_item stand_in_project 9 TIMELINE_DEFAULT_OPTIONS
            "svg" record_noon _ module_store loc_scale (mkScale [] []));
    [reflexivity | intros tod H; vm_compute in H; discriminate
    | reflexivity | reflexivity | reflexivity].
Defined.

(** X21: in a constructed timeline all the items that carry text have the
    same extent across the time axis: the same height under [up], [down] and
    any direction other than [left] and [right], and the same width under
    [left] and [right], where the rotation has swapped the equalized heights
    into the widths. *)
Theorem Timeline_init_equal_extents (today : Z)
    (nice : list pyval -> list pyval)
    (d3_extent : list (gmap string pyval) -> optval -> result (list pyval))
    (G : gset string) (dicts : list (gmap string pyval))
    (caller : option (gmap string optval)) (mode : string)
    (st st' : gmap loc obj) (tl : Timeline) :
  Timeline_init today nice d3_extent G dicts caller mode st = (Ok tl, st') ->
  exists m, forall it, it ∈ items tl -> textual it = true ->
    (if in_left_right (direction tl) then width it else height it) = m.
Proof.
  intros H.
  destruct (Timeline_init_Ok_inv _ _ _ _ _ _ _ _ _ _ H)
    as (_ & -> & _ & its & its' & _ & Heq & -> & _).
  unfold equal_heights in Heq.
  destruct (py_max (height <$> its)) as [m|]; [|discriminate].
  simpl in Heq. injection Heq as <-.
  exists m. intros it Hin Ht. unfold rotate_items in *.
  destruct (in_left_right (direction_of caller)).
  - apply list_elem_of_fmap in Hin as (it1 & -> & Hin).
    apply list_elem_of_fmap in Hin as (it0 & -> & _).
    unfold textual in Ht.
    destruct (truthy (text it0)) eqn:E0; simpl in *.
    + rewrite E0 in *. done.
    + rewrite E0 in *. simpl in Ht. congruence.
  - apply list_elem_of_fmap in Hin as (it0 & -> & _).
    unfold textual in Ht.
    destruct (truthy (text it0)) eqn:E0; simpl in *; [done | congruence].
Qed.

Lemma Timeline_init_equal_extents_witness :
  exists tl st',
    example_run = (Ok tl, st') /\
    exists m, forall it, it ∈ items tl -> textual it = true ->
      (if in_left_right (direction tl) then width it else height it) = m.
Proof.
  destruct example_run as [r st'] eqn:E.
  assert (H : exists tl, r = Ok tl).
  { assert (H : r = example_run.1) by (by rewrite E). rewrite H.
    vm_compute. by eexists. }
  destruct H as [tl ->]. exists tl, st'. split; [done|].
  exact (Timeline_init_equal_extents 0 (fun extent => extent)
           constant_extent module_globals [record_hello; record_dot]
           (Some options_domain) "svg" module_store st' tl E).
Defined.
